(** * Student OJT hours tracker (app.py): undo/redo history, audit queue,
      clock-in, merge sort and prefix search.

    A shallow embedding of the request handlers and helper routines of
    [app.py].  The relational store is an in-memory table per model class,
    the module-level [action_log_queue], [undo_stack] and [redo_stack] are
    fields of one explicit [state], and every handler is a function from the
    request's inputs and the state to a reply and the next state. *)

From Stdlib Require Import ZArith NArith Lia Bool Ascii String Sorting.Sorted.
From stdpp Require Import gmap list fin_maps.
From Equations Require Import Equations.

Local Open Scope Z_scope.

(** ** Python values *)

(** A Python [str] is a sequence of Unicode code points; comparison and
    [startswith] work code point by code point. *)
Abbreviation pystr := (list N).

(** ASCII literals, to write names readably. *)
Definition py (s : string) : pystr :=
  List.map N_of_ascii (list_ascii_of_string s).

(** The tags carried by history entries and audit records are Python strings
    ('ADD', 'EDIT', 'DELETE', 'UNDO', 'REDO'); the [if]/[elif] chains of
    [undo] and [redo] dispatch on them and have no final [else]. *)
Inductive action_type := ADD | EDIT | DELETE | UNDO | REDO.

(** ** Database models *)

(** A row of [Student]; the primary key is the key of the table. *)
Record Student := mkStudent {
  name : pystr;
  program : option pystr;
  total_hours : Z;
  completed_hours : Z;
  picture : option pystr
}.

Definition remaining_hours (s : Student) : Z :=
  total_hours s - completed_hours s.

(** A row of [TimeEntry]; [clock_out = None] is an open entry. *)
Record TimeEntry := mkTimeEntry {
  te_id : Z;
  te_student_id : Z;
  te_clock_in : Z;
  te_clock_out : option Z
}.

(** The [details] dictionaries handed to [log_action] (stored as JSON text by
    the source; kept structured here). *)
Inductive details :=
| DetailsAdd (prog : option pystr) (total completed : Z) (pic : option pystr)
| DetailsEdit (old_name new_name : pystr) (prog : option pystr)
              (total completed : Z)
| DetailsDeleted
| DetailsOriginal (original_action : action_type).

(** A row of [ActionLog]. *)
Record ActionLog := mkActionLog {
  al_id : Z;
  al_action_type : action_type;
  al_student_name : pystr;
  al_student_id : option Z;
  al_details : option details;
  al_timestamp : Z
}.

(** The lightweight dictionary appended to [action_log_queue]. *)
Record queue_entry := mkQueueEntry {
  q_id : Z;
  q_action_type : action_type;
  q_student_name : pystr;
  q_student_id : option Z;
  q_timestamp : Z
}.

(** The [student_data] dictionary of a history entry.  [get_student_snapshot]
    fills the ['id'] key, the dictionary built by [add_student] has none. *)
Record snapshot := mkSnapshot {
  s_id : option Z;
  s_name : pystr;
  s_program : option pystr;
  s_total_hours : Z;
  s_completed_hours : Z;
  s_picture : option pystr
}.

(** An entry of [undo_stack] / [redo_stack]. *)
Record hist_entry := mkEntry {
  e_student_id : Z;
  e_action_type : action_type;
  e_data : snapshot
}.

(** ** Process and store state *)

Record state := mkState {
  students : gmap Z Student;
  time_entries : list TimeEntry;
  action_logs : list ActionLog;
  action_log_queue : list queue_entry;   (* deque(maxlen=100), oldest first *)
  undo_stack : list hist_entry;          (* Python list, top is the last item *)
  redo_stack : list hist_entry
}.

Definition set_students (m : gmap Z Student) (st : state) : state :=
  mkState m (time_entries st) (action_logs st) (action_log_queue st)
          (undo_stack st) (redo_stack st).

Definition set_time_entries (l : list TimeEntry) (st : state) : state :=
  mkState (students st) l (action_logs st) (action_log_queue st)
          (undo_stack st) (redo_stack st).

Definition set_undo_stack (l : list hist_entry) (st : state) : state :=
  mkState (students st) (time_entries st) (action_logs st)
          (action_log_queue st) l (redo_stack st).

Definition set_redo_stack (l : list hist_entry) (st : state) : state :=
  mkState (students st) (time_entries st) (action_logs st)
          (action_log_queue st) (undo_stack st) l.

(** The state of a freshly started process over an empty database. *)
Definition initial_state : state := mkState ∅ [] [] [] [] [].

(** *** Python list used as a stack: [append] and [pop] work at the end. *)

Definition py_append {A} (l : list A) (x : A) : list A := l ++ [x].

Definition py_pop {A} (l : list A) : option (list A * A) :=
  match rev l with
  | [] => None
  | x :: r => Some (rev r, x)
  end.

(** *** [collections.deque] with [maxlen]: append on the right, then drop
    from the left while the length exceeds [maxlen]. *)

Definition action_log_maxlen : nat := 100.

Definition deque_append {A} (maxlen : nat) (q : list A) (x : A) : list A :=
  let q' := q ++ [x] in
  if (maxlen <? length q')%nat then tail q' else q'.

(** *** Primary keys.  SQLite gives a new row the largest key in use plus
    one (1 for an empty table). *)

Definition Z_max_list (l : list Z) : Z := foldr Z.max 0 l.

Definition next_id (ids : list Z) : Z := Z_max_list ids + 1.

Definition student_ids (m : gmap Z Student) : list Z :=
  (map_to_list m).*1.

(** ** Replies *)

Inductive category := message | warning | success | danger.

Inductive flash_text :=
| NothingToUndo | NothingToRedo
| UndoRestored (n : pystr) | UndoDeleted (n : pystr) | UndoFailedNotFound
| RedoDeleted (n : pystr) | RedoUpdated (n : pystr) | RedoAdded (n : pystr)
| StudentAdded (n : pystr) | StudentUpdated (n : pystr)
| StudentDeleted (n : pystr)
| AlreadyCompletedHours | YouAreAlreadyClockedIn | ClockedInAt (now : Z)
| StudentRecordNotFound.

Inductive endpoint := admin_dashboard | student_login | student_dashboard.

Inductive response :=
| Redirect (e : endpoint)
| NotFound404
| TextAlreadyClockedIn
| TextClockedIn (now : Z).

Record reply := mkReply {
  resp : response;
  flashed : list (flash_text * category)
}.

(** ** Helper functions for queue and stack *)

Definition log_action (a : action_type) (student_name : pystr)
    (sid : option Z) (d : option details) (now : Z) (st : state) : state :=
  let action :=
    mkActionLog (next_id (al_id <$> action_logs st)) a student_name sid d now in
  mkState (students st) (time_entries st)
          (action_logs st ++ [action])
          (deque_append action_log_maxlen (action_log_queue st)
             (mkQueueEntry (al_id action) a student_name sid
                           (al_timestamp action)))
          (undo_stack st) (redo_stack st).

Definition save_to_undo_stack (sid : Z) (a : action_type)
    (student_data : snapshot) (st : state) : state :=
  let undo_entry := mkEntry sid a student_data in
  set_redo_stack [] (set_undo_stack (py_append (undo_stack st) undo_entry) st).

Definition get_student_snapshot (id : Z) (s : Student) : snapshot :=
  mkSnapshot (Some id) (name s) (program s) (total_hours s)
             (completed_hours s) (picture s).

(** The five assignments [student.name = data['name']] ... of [undo] and
    [redo], and the constructor call [Student(id=..., name=data['name'], ...)]
    produce the same row. *)
Definition student_of_data (d : snapshot) : Student :=
  mkStudent (s_name d) (s_program d) (s_total_hours d)
            (s_completed_hours d) (s_picture d).

(** [TimeEntry.query.filter_by(student_id=id).delete()] *)
Definition delete_time_entries (id : Z) (l : list TimeEntry) : list TimeEntry :=
  List.filter (fun te => negb (te_student_id te =? id)) l.

(** ** Mutation routes (POST branches).

    The form is taken as already parsed ([int(...)] succeeded); the uploaded
    picture is the file name the upload block computes, [None] when no
    acceptable file was sent.  Files on disk are not part of the state. *)

Definition add_student (form_name : pystr) (form_program : option pystr)
    (form_total form_completed : Z) (picture_filename : option pystr)
    (now : Z) (st : state) : reply * state :=
  let new_id := next_id (student_ids (students st)) in
  let new_student :=
    mkStudent form_name form_program form_total form_completed
              picture_filename in
  let st := set_students (<[new_id := new_student]> (students st)) st in
  let student_data :=
    mkSnapshot None form_name form_program form_total form_completed
               picture_filename in
  let st := save_to_undo_stack new_id ADD student_data st in
  let st :=
    log_action ADD form_name (Some new_id)
      (Some (DetailsAdd form_program form_total form_completed
                        picture_filename)) now st in
  (mkReply (Redirect admin_dashboard) [(StudentAdded form_name, message)], st).

Definition edit_student (id : Z) (form_name : pystr)
    (form_program : option pystr) (form_total form_completed : Z)
    (uploaded : option pystr) (now : Z) (st : state) : reply * state :=
  match students st !! id with
  | None => (mkReply NotFound404 [], st)
  | Some student =>
      let st := save_to_undo_stack id EDIT (get_student_snapshot id student) st in
      let old_name := name student in
      let student' :=
        mkStudent form_name form_program form_total form_completed
          (match uploaded with
           | Some filename => Some filename
           | None => picture student
           end) in
      let st := set_students (<[id := student']> (students st)) st in
      let st :=
        log_action EDIT (name student') (Some id)
          (Some (DetailsEdit old_name (name student') (program student')
                   (total_hours student') (completed_hours student'))) now st in
      (mkReply (Redirect admin_dashboard)
               [(StudentUpdated (name student'), message)], st)
  end.

Definition delete_student (id : Z) (now : Z) (st : state) : reply * state :=
  match students st !! id with
  | None => (mkReply NotFound404 [], st)
  | Some student =>
      let student_name := name student in
      let st := save_to_undo_stack id DELETE (get_student_snapshot id student) st in
      let st := set_time_entries (delete_time_entries id (time_entries st)) st in
      let st := set_students (delete id (students st)) st in
      let st := log_action DELETE student_name (Some id) (Some DetailsDeleted) now st in
      (mkReply (Redirect admin_dashboard)
               [(StudentDeleted student_name, message)], st)
  end.

(** ** Undo / redo routes.

    The store of this model is total, so the [except Exception] handlers of
    the two routes, which catch faults raised by the database layer, have no
    counterpart here; every other path of the source is present. *)

Definition undo (now : Z) (st : state) : reply * state :=
  match py_pop (undo_stack st) with
  | None =>
      (mkReply (Redirect admin_dashboard) [(NothingToUndo, warning)], st)
  | Some (rest, undo_entry) =>
      let st := set_undo_stack rest st in
      let sid := e_student_id undo_entry in
      let d := e_data undo_entry in
      match e_action_type undo_entry with
      | EDIT =>
          match students st !! sid with
          | Some student =>
              let st := set_students (<[sid := student_of_data d]> (students st)) st in
              let st := log_action UNDO (s_name d) (Some sid)
                          (Some (DetailsOriginal EDIT)) now st in
              (mkReply (Redirect admin_dashboard)
                       [(UndoRestored (s_name d), success)], st)
          | None => (mkReply (Redirect admin_dashboard) [], st)
          end
      | ADD =>
          match students st !! sid with
          | Some student =>
              let st := set_time_entries
                          (delete_time_entries sid (time_entries st)) st in
              let st := set_students (delete sid (students st)) st in
              let st := log_action UNDO (name student) (Some sid)
                          (Some (DetailsOriginal ADD)) now st in
              let st := set_redo_stack (py_append (redo_stack st) undo_entry) st in
              (mkReply (Redirect admin_dashboard)
                       [(UndoDeleted (name student), success)], st)
          | None =>
              let st := set_undo_stack (py_append (undo_stack st) undo_entry) st in
              (mkReply (Redirect admin_dashboard)
                       [(UndoFailedNotFound, danger)], st)
          end
      | DELETE =>
          let st :=
            match students st !! sid with
            | Some existing =>
                (* already there: overwrite its five fields *)
                set_students (<[sid := student_of_data d]> (students st)) st
            | None =>
                (* create the row again under its old primary key *)
                set_students (<[sid := student_of_data d]> (students st)) st
            end in
          let st := log_action UNDO (s_name d) (Some sid)
                      (Some (DetailsOriginal DELETE)) now st in
          let st := set_redo_stack (py_append (redo_stack st) undo_entry) st in
          (mkReply (Redirect admin_dashboard)
                   [(UndoRestored (s_name d), success)], st)
      | _ => (mkReply (Redirect admin_dashboard) [], st)
      end
  end.

Definition redo (now : Z) (st : state) : reply * state :=
  match py_pop (redo_stack st) with
  | None =>
      (mkReply (Redirect admin_dashboard) [(NothingToRedo, warning)], st)
  | Some (rest, redo_entry) =>
      let st := set_redo_stack rest st in
      let sid := e_student_id redo_entry in
      let d := e_data redo_entry in
      match e_action_type redo_entry with
      | DELETE =>
          match students st !! sid with
          | Some student =>
              let st := set_time_entries
                          (delete_time_entries sid (time_entries st)) st in
              let st := set_students (delete sid (students st)) st in
              let st := log_action REDO (s_name d) (Some sid)
                          (Some (DetailsOriginal DELETE)) now st in
              let st := set_undo_stack (py_append (undo_stack st) redo_entry) st in
              (mkReply (Redirect admin_dashboard)
                       [(RedoDeleted (s_name d), success)], st)
          | None => (mkReply (Redirect admin_dashboard) [], st)
          end
      | EDIT =>
          match students st !! sid with
          | Some student =>
              let st := set_students (<[sid := student_of_data d]> (students st)) st in
              let st := log_action REDO (s_name d) (Some sid)
                          (Some (DetailsOriginal EDIT)) now st in
              let st := set_undo_stack (py_append (undo_stack st) redo_entry) st in
              (mkReply (Redirect admin_dashboard)
                       [(RedoUpdated (s_name d), success)], st)
          | None => (mkReply (Redirect admin_dashboard) [], st)
          end
      | ADD =>
          let st :=
            match students st !! sid with
            | Some existing =>
                set_students (<[sid := student_of_data d]> (students st)) st
            | None =>
                set_students (<[sid := student_of_data d]> (students st)) st
            end in
          let st := log_action REDO (s_name d) (Some sid)
                      (Some (DetailsOriginal ADD)) now st in
          let st := set_undo_stack (py_append (undo_stack st) redo_entry) st in
          (mkReply (Redirect admin_dashboard)
                   [(RedoAdded (s_name d), success)], st)
      | _ => (mkReply (Redirect admin_dashboard) [], st)
      end
  end.

(** ** Clock-in routes *)

(** [TimeEntry.query.filter_by(student_id=id, clock_out=None).first()] *)
Definition is_open_for (id : Z) (te : TimeEntry) : bool :=
  (te_student_id te =? id) &&
  match te_clock_out te with None => true | Some _ => false end.

Definition open_entry_of (id : Z) (l : list TimeEntry) : option TimeEntry :=
  List.find (is_open_for id) l.

(** Administrative path, [/student/<id>/clock_in]. *)
Definition clock_in (id : Z) (now : Z) (st : state) : reply * state :=
  match students st !! id with
  | None => (mkReply NotFound404 [], st)
  | Some student =>
      match open_entry_of id (time_entries st) with
      | Some open_entry => (mkReply TextAlreadyClockedIn [], st)
      | None =>
          let entry :=
            mkTimeEntry (next_id (te_id <$> time_entries st)) id now None in
          (mkReply (TextClockedIn now) [],
           set_time_entries (time_entries st ++ [entry]) st)
      end
  end.

(** [not sid] for the value read from the session: absent, or the integer 0. *)
Definition not_sid (sid : option Z) : bool :=
  match sid with
  | None => true
  | Some i => i =? 0
  end.

(** [student.total_hours and student.completed_hours >= student.total_hours] *)
Definition hours_reached (s : Student) : bool :=
  negb (total_hours s =? 0) && (completed_hours s >=? total_hours s).

(** Self-service path, [/student/clock_in]; [session_sid] is
    [session.get("student_id")]. *)
Definition student_clock_in (session_sid : option Z) (now : Z) (st : state)
    : reply * state :=
  match session_sid with
  | None => (mkReply (Redirect student_login) [], st)
  | Some sid =>
      if not_sid session_sid then (mkReply (Redirect student_login) [], st)
      else
        match students st !! sid with
        | None =>
            (mkReply (Redirect student_login)
                     [(StudentRecordNotFound, message)], st)
        | Some student =>
            if hours_reached student then
              (mkReply (Redirect student_dashboard)
                       [(AlreadyCompletedHours, message)], st)
            else
              match open_entry_of sid (time_entries st) with
              | Some open_entry =>
                  (mkReply (Redirect student_dashboard)
                           [(YouAreAlreadyClockedIn, message)], st)
              | None =>
                  let entry :=
                    mkTimeEntry (next_id (te_id <$> time_entries st))
                                sid now None in
                  (mkReply (Redirect student_dashboard)
                           [(ClockedInAt now, message)],
                   set_time_entries (time_entries st ++ [entry]) st)
              end
        end
  end.

(** The open entries of one student. *)
Definition open_entries (id : Z) (st : state) : list TimeEntry :=
  List.filter (is_open_for id) (time_entries st).

(** ** Python string comparison *)

(** [a < b] on [str]: lexicographic on code points, a proper prefix first. *)
Fixpoint str_ltb (a b : pystr) : bool :=
  match a, b with
  | [], [] => false
  | [], _ :: _ => true
  | _ :: _, [] => false
  | x :: a', y :: b' =>
      if (x <? y)%N then true
      else if (y <? x)%N then false
      else str_ltb a' b'
  end.

Definition str_gtb (a b : pystr) : bool := str_ltb b a.
Definition str_geb (a b : pystr) : bool := negb (str_ltb a b).

(** [s.startswith(prefix)] *)
Fixpoint startswith (s prefix : pystr) : bool :=
  match prefix, s with
  | [], _ => true
  | _ :: _, [] => false
  | p :: prefix', c :: s' => (c =? p)%N && startswith s' prefix'
  end.

(** [str.lower] as far as the basic Latin letters go: every other code point
    is left alone.  It agrees with Python's method on every string whose cased
    characters are all ASCII; it is used only to evaluate the routines on such
    strings, the routines themselves take [lower] as a parameter. *)
Definition ascii_lower_cp (c : N) : N :=
  if ((65 <=? c) && (c <=? 90))%N then (c + 32)%N else c.

Definition ascii_lower (s : pystr) : pystr := List.map ascii_lower_cp s.

(** ** Merge sort *)

Section MergeSort.
Context {A K : Type}.
(** [<] on the values [key] returns; [a > b] is [b < a]. *)
Variable lt_key : K -> K -> bool.
Variable key : A -> K.
Variable reverse : bool.

(** The test that sends [left[i]] to the output. *)
Definition takes_left (x y : A) : bool :=
  if reverse then lt_key (key y) (key x) else lt_key (key x) (key y).

(** The loop of [merge] on the remaining slices [left[i:]] and [right[j:]];
    once one of them is empty the other is appended whole. *)
Fixpoint merge (left right : list A) : list A :=
  let fix merge_right (right : list A) : list A :=
    match left, right with
    | [], _ => right
    | _, [] => left
    | x :: left', y :: right' =>
        if takes_left x y then x :: merge left' right
        else y :: merge_right right'
    end
  in merge_right right.

Equations? merge_sort (data : list A) : list A by wf (length data) lt :=
  merge_sort data with le_lt_dec (length data) 1 => {
    | left _ => data
    | right _ =>
        merge (merge_sort (take (length data / 2)%nat data))
              (merge_sort (drop (length data / 2)%nat data)) }.
Proof.
  all: change (Nat.divmod (length data) 1 0 1).1
         with (length data / 2)%nat.
  - rewrite length_take.
    pose proof (Nat.div_lt (length data) 2). lia.
  - rewrite length_drop.
    pose proof (Nat.div_str_pos (length data) 2). lia.
Qed.
End MergeSort.

(** ** Listing: the sort step of [admin_dashboard] *)

(** A [Student] object as the queries return it: primary key and row. *)
Abbreviation student_obj := (Z * Student)%type.

Inductive sort_by :=
| by_name | by_program | by_total_hours | by_completed_hours
| by_remaining_hours | by_status
| by_unknown.   (* any other value of the [sort] argument: no sorting *)

(** Completed first (0), in progress (1). *)
Definition status_key (s : Student) : Z :=
  if hours_reached s then 0 else 1.

(** [(x.program or "")] *)
Definition program_or_empty (s : Student) : pystr :=
  match program s with
  | Some p => match p with [] => [] | _ => p end
  | None => []
  end.

Section Listing.
Variable lower : pystr -> pystr.

Definition sort_students (sort : sort_by) (reverse : bool)
    (students : list student_obj) : list student_obj :=
  match sort with
  | by_name =>
      merge_sort str_ltb (fun x => lower (name x.2)) reverse students
  | by_program =>
      merge_sort str_ltb (fun x => lower (program_or_empty x.2)) reverse
                 students
  | by_total_hours =>
      merge_sort Z.ltb (fun x => total_hours x.2) reverse students
  | by_completed_hours =>
      merge_sort Z.ltb (fun x => completed_hours x.2) reverse students
  | by_remaining_hours =>
      merge_sort Z.ltb (fun x => remaining_hours x.2) reverse students
  | by_status =>
      merge_sort Z.ltb (fun x => status_key x.2) reverse students
  | by_unknown => students
  end.
End Listing.

(** ** Binary prefix search *)

(** [names[mid]]; the two loops only read indexes between [lo] and [hi], which
    stay inside the list. *)
Definition name_at (names : list pystr) (mid : Z) : pystr :=
  nth (Z.to_nat mid) names [].

(** First loop: leftmost index whose name is [>= prefix]. *)
Equations? search_left (names : list pystr) (prefix : pystr)
    (lo hi left_ix : Z) : Z by wf (Z.to_nat (hi - lo + 1)) lt :=
  search_left names prefix lo hi left_ix with Z_le_gt_dec lo hi => {
    | right _ => left_ix
    | left _ =>
        if str_geb (name_at names ((lo + hi) / 2)) prefix
        then search_left names prefix lo ((lo + hi) / 2 - 1) ((lo + hi) / 2)
        else search_left names prefix ((lo + hi) / 2 + 1) hi left_ix }.
Proof.
  all: assert (lo <= (lo + hi) / 2 <= hi)
    by (split; [apply Z.div_le_lower_bound | apply Z.div_le_upper_bound]; lia);
    lia.
Qed.

(** Second loop: leftmost index whose name is [> hi_key]. *)
Equations? search_right (names : list pystr) (hi_key : pystr)
    (lo hi right_ix : Z) : Z by wf (Z.to_nat (hi - lo + 1)) lt :=
  search_right names hi_key lo hi right_ix with Z_le_gt_dec lo hi => {
    | right _ => right_ix
    | left _ =>
        if str_gtb (name_at names ((lo + hi) / 2)) hi_key
        then search_right names hi_key lo ((lo + hi) / 2 - 1) ((lo + hi) / 2)
        else search_right names hi_key ((lo + hi) / 2 + 1) hi right_ix }.
Proof.
  all: assert (lo <= (lo + hi) / 2 <= hi)
    by (split; [apply Z.div_le_lower_bound | apply Z.div_le_upper_bound]; lia);
    lia.
Qed.

(** The code point appended to build the high key, ['￿']. *)
Definition high_char : N := 65535.

Section Search.
Variable lower : pystr -> pystr.

Definition binary_prefix_search_students (students : list student_obj)
    (prefix : pystr) : list student_obj :=
  let prefix := lower prefix in
  match prefix with
  | [] => students
  | _ :: _ =>
      let names := List.map (fun s => lower (name s.2)) students in
      let left :=
        search_left names prefix 0 (Z.of_nat (length names) - 1)
                    (Z.of_nat (length names)) in
      let hi_key := prefix ++ [high_char] in
      let right :=
        search_right names hi_key 0 (Z.of_nat (length names) - 1)
                     (Z.of_nat (length names)) in
      List.filter (fun s => startswith (lower (name s.2)) prefix)
        (drop (Z.to_nat left) (take (Z.to_nat right) students))
  end.

(** The binary branch of the [search] route: sort by lowercased name, then
    search. *)
Definition search_binary (students : list student_obj) (q : pystr)
    : list student_obj :=
  binary_prefix_search_students
    (merge_sort str_ltb (fun x => lower (name x.2)) false students) q.
End Search.

(** ** Runs used to evaluate the routes *)

(** A sequence of [log_action] calls. *)
Record log_call := mkLogCall {
  lc_action : action_type;
  lc_name : pystr;
  lc_sid : option Z;
  lc_details : option details;
  lc_now : Z
}.

Definition run_log (calls : list log_call) (st : state) : state :=
  foldl (fun st c =>
           log_action (lc_action c) (lc_name c) (lc_sid c) (lc_details c)
                      (lc_now c) st) st calls.

(** What [log_action] copies from the stored row into the queue. *)
Definition to_queue_entry (a : ActionLog) : queue_entry :=
  mkQueueEntry (al_id a) (al_action_type a) (al_student_name a)
               (al_student_id a) (al_timestamp a).

(** Student A with 10 target hours is added, then edited to 5 completed
    hours. *)
Definition st_added : state :=
  (add_student (py "A") None 10 0 None 100 initial_state).2.

Definition st_edited : state :=
  (edit_student 1 (py "A") None 10 5 None 101 st_added).2.

(** A history whose top entry is an EDIT of student 7, over a store that has
    no student 7. *)
Definition gone_snapshot : snapshot :=
  mkSnapshot (Some 7) (py "Gone") None 10 0 None.

Definition st_edit_of_missing : state :=
  mkState ∅ [] [] [] [mkEntry 7 EDIT gone_snapshot] [].

Definition st_redo_of_missing (a : action_type) : state :=
  mkState ∅ [] [] [] [] [mkEntry 7 a gone_snapshot].

(** The reply of [redo] on an empty redo stack. *)
Definition nothing_to_redo : reply :=
  mkReply (Redirect admin_dashboard) [(NothingToRedo, warning)].

(** After add A, edit A: one undo, which leaves an entry of the earlier ADD
    on the redo stack, then a fresh edit. *)
Definition st_undone_once : state := (undo 102 st_edited).2.
Definition st_undone_twice : state := (undo 103 st_undone_once).2.

(** Students A and B are added and the second add is undone: A is in the
    store and the entry of B is on the redo stack. *)
Definition st_redo_pending : state :=
  (undo 112
     (add_student (py "B") None 20 0 None 111
        (add_student (py "A") None 10 0 None 110 initial_state).2).2).2.

(** 101 audit records, numbered 1 to 101. *)
Definition calls_101 : list log_call :=
  (fun i => mkLogCall ADD (py "s") (Some i) None (1000 + i)) <$> seqZ 1 101.

(** Student A has reached the 10 target hours and is clocked out; student B
    is clocked in. *)
Definition st_clock : state :=
  mkState {[ 1 := mkStudent (py "A") None 10 10 None;
             2 := mkStudent (py "B") None 10 3 None ]}
          [mkTimeEntry 1 1 500 (Some 900); mkTimeEntry 2 2 950 None]
          [] [] [] [].

(** At most one open entry per student. *)
Definition one_open_entry_each (st : state) : Prop :=
  forall i, (length (open_entries i st) <= 1)%nat.

(** The sort keys the dashboard offers. *)
Definition supported_sort_keys : list sort_by :=
  [by_name; by_program; by_total_hours; by_completed_hours;
   by_remaining_hours; by_status].

(** Two students with the same name, program and hours, listed as 1 then 2. *)
Definition twin_1 : student_obj :=
  (1, mkStudent (py "Ann") (Some (py "BSIT")) 10 4 None).
Definition twin_2 : student_obj :=
  (2, mkStudent (py "Ann") (Some (py "BSIT")) 10 4 None).

(** The names of the search example, and a name whose third character lies
    above U+FFFF (U+1F600). *)
Definition named (id : Z) (n : pystr) : student_obj :=
  (id, mkStudent n None 10 0 None).

Definition example_students : list student_obj :=
  [named 1 (py "Jon"); named 2 (py "Joanna"); named 3 (py "Bob")].

Definition astral_name : pystr := py "Jo" ++ [128512%N].

Definition astral_sorted : list student_obj :=
  [named 3 (py "Bob"); named 2 (py "Joanna"); named 1 astral_name].

(** ** Sequences of mutating requests and of undo requests *)

(** One POST to [/add_student], [/edit_student/<id>] or
    [/delete_student/<id>], with its parsed form. *)
Inductive mutation :=
| MAdd (n : pystr) (p : option pystr) (t c : Z) (pic : option pystr)
| MEdit (id : Z) (n : pystr) (p : option pystr) (t c : Z)
        (uploaded : option pystr)
| MDelete (id : Z).

Definition mutate (st : state) (req : Z * mutation) : state :=
  match req.2 with
  | MAdd n p t c pic => (add_student n p t c pic req.1 st).2
  | MEdit id n p t c up => (edit_student id n p t c up req.1 st).2
  | MDelete id => (delete_student id req.1 st).2
  end.

Definition run_mutations (reqs : list (Z * mutation)) (st : state) : state :=
  foldl mutate st reqs.

(** One POST to [/undo] per element of [nows]. *)
Definition undo_all (nows : list Z) (st : state) : state :=
  foldl (fun st now => (undo now st).2) st nows.

(** Two states with the same student table and the same undo stack. *)
Definition same_history (a b : state) : Prop :=
  students a = students b /\ undo_stack a = undo_stack b.

(** The audit queue holds the lightweight copies of the last 100 stored
    rows. *)
Definition queue_mirrors_log (st : state) : Prop :=
  action_log_queue st
  = drop (length (action_logs st) - action_log_maxlen)
         (to_queue_entry <$> action_logs st).

(** Add A, edit A, try to delete a missing student 5, delete A. *)
Definition sample_requests : list (Z * mutation) :=
  [(200, MAdd (py "A") None 10 0 None);
   (201, MEdit 1 (py "A") (Some (py "BSIT")) 10 5 None);
   (202, MDelete 5);
   (203, MDelete 1)].

(** The audit data of a state: stored rows and in-memory queue. *)
Definition audit (st : state) : list ActionLog * list queue_entry :=
  (action_logs st, action_log_queue st).

(** [st'] has the audit data of [st], or of [st] after one [log_action]
    call with the tag [a]. *)
Definition logs_at_most_one (a : action_type) (st st' : state) : Prop :=
  audit st' = audit st \/
  exists n sid d now, audit st' = audit (log_action a n sid d now st).

(** ** Order of the output of [merge_sort] *)

Section SortOrder.
Context {A K : Type}.
Variable lt_key : K -> K -> bool.
Variable key : A -> K.
Variable reverse : bool.

(** [y] may follow [x] in a sorted list: [y] does not go strictly before
    [x] (its key is not smaller, or not greater when [reverse]). *)
Definition in_order (x y : A) : Prop :=
  takes_left lt_key key reverse y x = false.

(** No two elements of [data] compare strictly: all keys tie. *)
Definition all_tied (data : list A) : Prop :=
  forall x y, x ∈ data -> y ∈ data ->
              takes_left lt_key key reverse x y = false.
End SortOrder.

(** ** Order of names, for the binary prefix search *)

(** [a <= b] on [str]. *)
Definition str_le (a b : pystr) : Prop := str_ltb b a = false.

(** Every code point of [s] lies below the one appended to build the high
    key. *)
Definition below_high_char (s : pystr) : Prop :=
  Forall (fun c => (c < high_char)%N) s.

(** ** Clock-out, administrative route *)

(** [TimeEntry.query.filter_by(student_id=id, clock_out=None)
      .order_by(TimeEntry.clock_in.desc()).first()]: position and row of the
    open entry of [id] with the greatest [clock_in]; among equal [clock_in]
    values the first row of the table is kept.  [i] is the position of the
    head of [l], [best] the choice so far. *)
Fixpoint latest_open (id : Z) (l : list TimeEntry) (i : nat)
    (best : option (nat * TimeEntry)) : option (nat * TimeEntry) :=
  match l with
  | [] => best
  | te :: l' =>
      latest_open id l' (S i)
        (if is_open_for id te then
           match best with
           | Some (_, b) =>
               if te_clock_in b <? te_clock_in te then Some (i, te) else best
           | None => Some (i, te)
           end
         else best)
  end.

Inductive clock_out_reply :=
| ClockOut404
| NoActiveClockIn
| ClockedOut (now : Z).

(** [open_entry.clock_out = now] *)
Definition close_entry (now : Z) (te : TimeEntry) : TimeEntry :=
  mkTimeEntry (te_id te) (te_student_id te) (te_clock_in te) (Some now).

Definition clock_out (id : Z) (now : Z) (st : state)
    : clock_out_reply * state :=
  match students st !! id with
  | None => (ClockOut404, st)
  | Some student =>
      match latest_open id (time_entries st) 0 None with
      | None => (NoActiveClockIn, st)
      | Some (i, open_entry) =>
          (ClockedOut now,
           set_time_entries
             (<[i := close_entry now open_entry]> (time_entries st)) st)
      end
  end.

(** ** Linear search *)

(** [q in s] on strings: [q] occurs in [s] at some position. *)
Fixpoint str_in (q s : pystr) : bool :=
  startswith s q ||
  match s with
  | [] => false
  | _ :: s' => str_in q s'
  end.

Section LinearSearch.
Variable lower : pystr -> pystr.

(** The loop appends the students that match, in list order.  [name] is
    never null, so [(s.name or "")] is the name. *)
Definition linear_search_students (students : list student_obj) (q : pystr)
    : list student_obj :=
  let q := lower q in
  List.filter
    (fun s =>
       let name := lower (name s.2) in
       let prog := lower (program_or_empty s.2) in
       str_in q name || str_in q prog)
    students.
End LinearSearch.

(** ** Upload file names *)

Definition dot : N := 46.

(** ['.' in filename] *)
Definition has_dot (filename : pystr) : bool :=
  existsb (N.eqb dot) filename.

(** [filename.rsplit('.', 1)]: the whole string when it has no dot, else the
    part before the last dot and the part after it. *)
Fixpoint rsplit_dot (s : pystr) : list pystr :=
  match s with
  | [] => [[]]
  | c :: s' =>
      match rsplit_dot s' with
      | [head; tail] => [c :: head; tail]
      | _ => if (c =? dot)%N then [[]; s'] else [c :: s']
      end
  end.

Definition ALLOWED_EXTENSIONS : list pystr :=
  [py "png"; py "jpg"; py "jpeg"; py "gif"].

Definition pystr_eqb (a b : pystr) : bool :=
  bool_decide (a = b).

Section AllowedFile.
Variable lower : pystr -> pystr.

Definition allowed_file (filename : pystr) : bool :=
  has_dot filename &&
  existsb (pystr_eqb (lower (nth 1 (rsplit_dot filename) [])))
          ALLOWED_EXTENSIONS.
End AllowedFile.

(** ** Pages that list students *)

(** What a listing route answers: a redirect to the dashboard, with the
    query of the "No students found matching ..." warning when one is
    flashed, or the dashboard template with the students to show. *)
Inductive page :=
| PageRedirect (not_found : option pystr)
| PageStudents (students : list student_obj).

Section Pages.
Variable lower : pystr -> pystr.
Variable strip : pystr -> pystr.

(** The [search] route; [q_arg] and [alg_arg] are the query-string
    arguments (the defaults [""] and ["linear"] are the caller's),
    [students] is [Student.query.all()]. *)
Definition search (q_arg alg_arg : pystr) (students : list student_obj)
    : page :=
  let q := strip q_arg in
  match q with
  | [] => PageRedirect None
  | _ :: _ =>
      let alg := lower alg_arg in
      let results :=
        if pystr_eqb alg (py "binary") then search_binary lower students q
        else linear_search_students lower students q in
      match results with
      | [] => PageRedirect (Some q)
      | _ :: _ => PageStudents results
      end
  end.

(** [request.args.get(..., "").strip() or None] *)
Definition selected (arg : pystr) : option pystr :=
  match strip arg with
  | [] => None
  | v => Some v
  end.

(** The program filter of [admin_dashboard]. *)
Definition program_filter (selected_program : option pystr)
    (students_all : list student_obj) : list student_obj :=
  match selected_program with
  | Some p =>
      List.filter
        (fun s => pystr_eqb (strip (program_or_empty s.2)) p) students_all
  | None => students_all
  end.

(** The status filter of [admin_dashboard]; a value other than the two
    offered ones filters nothing. *)
Definition status_filter (selected_status : option pystr)
    (students : list student_obj) : list student_obj :=
  match selected_status with
  | Some v =>
      if pystr_eqb v (py "Completed") then
        List.filter (fun s => hours_reached s.2) students
      else if pystr_eqb v (py "In progress") then
        List.filter (fun s => negb (hours_reached s.2)) students
      else students
  | None => students
  end.

(** The [students] list [admin_dashboard] hands to its template. *)
Definition admin_dashboard_students (program_arg status_arg : pystr)
    (sort : sort_by) (reverse : bool) (students_all : list student_obj)
    : list student_obj :=
  sort_students lower sort reverse
    (status_filter (selected status_arg)
       (program_filter (selected program_arg) students_all)).
End Pages.

(** The order a listing sorted by [sort] shows: no student is followed by
    one that goes strictly before it under the key of [sort]. *)
Definition listing_in_order (lower : pystr -> pystr) (sort : sort_by)
    (reverse : bool) : student_obj -> student_obj -> Prop :=
  match sort with
  | by_name => in_order str_ltb (fun x => lower (name x.2)) reverse
  | by_program =>
      in_order str_ltb (fun x => lower (program_or_empty x.2)) reverse
  | by_total_hours => in_order Z.ltb (fun x => total_hours x.2) reverse
  | by_completed_hours =>
      in_order Z.ltb (fun x => completed_hours x.2) reverse
  | by_remaining_hours =>
      in_order Z.ltb (fun x => remaining_hours x.2) reverse
  | by_status => in_order Z.ltb (fun x => status_key x.2) reverse
  | by_unknown => fun _ _ => True
  end.

(** [q] occurs in [s]. *)
Definition substring (q s : pystr) : Prop :=
  exists pre post, s = pre ++ q ++ post.

(** The students the two filters of [admin_dashboard] let through. *)
Definition passes_filters (strip : pystr -> pystr)
    (program_arg status_arg : pystr) (s : student_obj) : bool :=
  match strip program_arg with
  | [] => true
  | p => pystr_eqb (strip (program_or_empty s.2)) p
  end &&
  (if pystr_eqb (strip status_arg) (py "Completed") then hours_reached s.2
   else if pystr_eqb (strip status_arg) (py "In progress")
        then negb (hours_reached s.2)
   else true).

(** [str.strip] as far as ASCII goes: the white-space code points 9 to 13,
    28 to 31 and 32 are removed at both ends.  It agrees with Python's method
    on every ASCII string and is used only to evaluate the routes on such
    strings; the routes themselves take [strip] as a parameter. *)
Definition ascii_space (c : N) : bool :=
  ((9 <=? c) && (c <=? 13) || (28 <=? c) && (c <=? 32))%N.

Fixpoint ascii_lstrip (s : pystr) : pystr :=
  match s with
  | [] => []
  | c :: s' => if ascii_space c then ascii_lstrip s' else s
  end.

Definition ascii_strip (s : pystr) : pystr :=
  rev (ascii_lstrip (rev (ascii_lstrip s))).

(** Three students: Ann has finished her 10 hours, Bob and Cy have not;
    Ann and Cy are in BSIT, Bob in BSCS. *)
Definition roster : list student_obj :=
  [(1, mkStudent (py "Cy") (Some (py "BSIT")) 20 5 None);
   (2, mkStudent (py "Ann") (Some (py "BSIT")) 10 10 None);
   (3, mkStudent (py "Bob") (Some (py "BSCS")) 10 0 None)].

(** * Properties *)

(** ** Stacks *)

Section Stack.
Context {A : Type}.
Implicit Types (l : list A) (x : A).

Lemma py_pop_nil : py_pop (@nil A) = None.
Proof. reflexivity. Qed.

Lemma py_pop_append l x : py_pop (py_append l x) = Some (l, x).
Proof.
  unfold py_pop, py_append. rewrite rev_unit. now rewrite rev_involutive.
Qed.

Lemma py_pop_None l : py_pop l = None -> l = [].
Proof.
  unfold py_pop. destruct (rev l) eqn:E; [|discriminate]. intros _.
  apply (f_equal (@rev A)) in E. now rewrite rev_involutive in E.
Qed.

Lemma py_pop_Some l rest x : py_pop l = Some (rest, x) -> l = py_append rest x.
Proof.
  unfold py_pop, py_append. destruct (rev l) eqn:E; [discriminate|].
  intros [= <- <-]. apply (f_equal (@rev A)) in E.
  rewrite rev_involutive in E. now subst l.
Qed.
End Stack.

(** ** Primary keys are fresh *)

Lemma Z_max_list_ge (l : list Z) (z : Z) : z ∈ l -> z <= Z_max_list l.
Proof.
  induction 1 as [z l|z y l _ IH]; simpl; lia.
Qed.

Lemma next_id_fresh (m : gmap Z Student) :
  m !! next_id (student_ids m) = None.
Proof.
  destruct (m !! next_id (student_ids m)) as [s|] eqn:E; [|reflexivity].
  exfalso. apply elem_of_map_to_list in E.
  assert (next_id (student_ids m) ∈ student_ids m) as Hin.
  { unfold student_ids. apply list_elem_of_fmap. now exists (next_id (student_ids m), s). }
  apply Z_max_list_ge in Hin. unfold next_id in Hin. lia.
Qed.

(** ** What the helpers leave alone *)

Lemma log_action_students a n sid d now st :
  students (log_action a n sid d now st) = students st.
Proof. reflexivity. Qed.

Lemma log_action_undo_stack a n sid d now st :
  undo_stack (log_action a n sid d now st) = undo_stack st.
Proof. reflexivity. Qed.

Lemma log_action_redo_stack a n sid d now st :
  redo_stack (log_action a n sid d now st) = redo_stack st.
Proof. reflexivity. Qed.

Lemma save_to_undo_stack_undo sid a d st :
  undo_stack (save_to_undo_stack sid a d st)
  = py_append (undo_stack st) (mkEntry sid a d).
Proof. reflexivity. Qed.

Lemma save_to_undo_stack_redo sid a d st :
  redo_stack (save_to_undo_stack sid a d st) = [].
Proof. reflexivity. Qed.

Lemma redo_empty now st :
  redo_stack st = [] ->
  redo now st = (mkReply (Redirect admin_dashboard) [(NothingToRedo, warning)], st).
Proof. intros H. unfold redo. now rewrite H. Qed.

(** ** C9: undo with nothing to undo *)

(** C9.  With an empty undo stack, [undo] flashes "Nothing to undo." and
    hands back the very state it was given: store, queue and both stacks. *)
Theorem undo_empty_is_noop (now : Z) (st : state) :
  undo_stack st = [] ->
  undo now st
  = (mkReply (Redirect admin_dashboard) [(NothingToUndo, warning)], st).
Proof. intros H. unfold undo. now rewrite H. Qed.

Lemma undo_empty_is_noop_witness :
  undo_stack initial_state = [] /\
  undo 5 initial_state
  = (mkReply (Redirect admin_dashboard) [(NothingToUndo, warning)],
     initial_state).
Proof.
  split; [reflexivity|]. apply undo_empty_is_noop. reflexivity.
Defined.

(** ** C4: a new action clears the redo stack *)

Lemma add_student_redo_stack n p t c pic now st :
  redo_stack (add_student n p t c pic now st).2 = [].
Proof. reflexivity. Qed.

Lemma edit_student_redo_stack id n p t c up now st :
  is_Some (students st !! id) ->
  redo_stack (edit_student id n p t c up now st).2 = [].
Proof. intros [s Hs]. unfold edit_student. now rewrite Hs. Qed.

Lemma delete_student_redo_stack id now st :
  is_Some (students st !! id) ->
  redo_stack (delete_student id now st).2 = [].
Proof. intros [s Hs]. unfold delete_student. now rewrite Hs. Qed.

(** C4.  [save_to_undo_stack] always leaves the redo stack empty, whatever it
    held before; so does each of the three mutating routes (which call it
    once, for an existing student in the case of edit and delete), and a
    [redo] issued right after reports "Nothing to redo." and returns the
    state unchanged. *)
Theorem new_action_clears_redo (st : state) (now now' : Z) :
  (forall sid a d,
      let st' := save_to_undo_stack sid a d st in
      redo_stack st' = [] /\ redo now' st' = (nothing_to_redo, st')) /\
  (forall n p t c pic,
      let st' := (add_student n p t c pic now st).2 in
      redo_stack st' = [] /\ redo now' st' = (nothing_to_redo, st')) /\
  (forall id n p t c up,
      is_Some (students st !! id) ->
      let st' := (edit_student id n p t c up now st).2 in
      redo_stack st' = [] /\ redo now' st' = (nothing_to_redo, st')) /\
  (forall id,
      is_Some (students st !! id) ->
      let st' := (delete_student id now st).2 in
      redo_stack st' = [] /\ redo now' st' = (nothing_to_redo, st')).
Proof.
  assert (forall st', redo_stack st' = [] ->
            redo_stack st' = [] /\ redo now' st' = (nothing_to_redo, st'))
    as Hredo by (intros st' H; split; [exact H | now apply redo_empty]).
  split; [|split; [|split]].
  - intros sid a d st'. apply Hredo, save_to_undo_stack_redo.
  - intros n p t c pic st'. apply Hredo, add_student_redo_stack.
  - intros id n p t c up Hid st'. now apply Hredo, edit_student_redo_stack.
  - intros id Hid st'. now apply Hredo, delete_student_redo_stack.
Qed.

Lemma new_action_clears_redo_witness :
  redo_stack st_redo_pending <> [] /\
  is_Some (students st_redo_pending !! 1) /\
  (let st' := (edit_student 1 (py "A") None 10 2 None 113 st_redo_pending).2 in
   redo_stack st' = [] /\ redo 114 st' = (nothing_to_redo, st')).
Proof.
  split; [discriminate|].
  split; [vm_compute; eauto|].
  apply (new_action_clears_redo st_redo_pending 113 114).
  vm_compute; eauto.
Defined.

(** ** One step of [undo] and [redo], case by case *)

Section Steps.
Variables (now : Z) (st : state) (rest : list hist_entry) (e : hist_entry).

Lemma undo_edit_present s :
  py_pop (undo_stack st) = Some (rest, e) ->
  e_action_type e = EDIT ->
  students st !! e_student_id e = Some s ->
  undo now st
  = (mkReply (Redirect admin_dashboard)
             [(UndoRestored (s_name (e_data e)), success)],
     log_action UNDO (s_name (e_data e)) (Some (e_student_id e))
       (Some (DetailsOriginal EDIT)) now
       (set_students
          (<[e_student_id e := student_of_data (e_data e)]> (students st))
          (set_undo_stack rest st))).
Proof. intros Hp Ha Hs. unfold undo. rewrite Hp, Ha. simpl. now rewrite Hs. Qed.

Lemma undo_edit_missing :
  py_pop (undo_stack st) = Some (rest, e) ->
  e_action_type e = EDIT ->
  students st !! e_student_id e = None ->
  undo now st
  = (mkReply (Redirect admin_dashboard) [], set_undo_stack rest st).
Proof. intros Hp Ha Hs. unfold undo. rewrite Hp, Ha. simpl. now rewrite Hs. Qed.

Lemma undo_add_present s :
  py_pop (undo_stack st) = Some (rest, e) ->
  e_action_type e = ADD ->
  students st !! e_student_id e = Some s ->
  undo now st
  = (mkReply (Redirect admin_dashboard) [(UndoDeleted (name s), success)],
     set_redo_stack (py_append (redo_stack st) e)
       (log_action UNDO (name s) (Some (e_student_id e))
          (Some (DetailsOriginal ADD)) now
          (set_students (delete (e_student_id e) (students st))
             (set_time_entries
                (delete_time_entries (e_student_id e) (time_entries st))
                (set_undo_stack rest st))))).
Proof. intros Hp Ha Hs. unfold undo. rewrite Hp, Ha. simpl. now rewrite Hs. Qed.

(** The one branch that reports a missing target: the entry goes back on the
    undo stack and the state is the one [undo] started from. *)
Lemma undo_add_missing :
  py_pop (undo_stack st) = Some (rest, e) ->
  e_action_type e = ADD ->
  students st !! e_student_id e = None ->
  undo now st
  = (mkReply (Redirect admin_dashboard) [(UndoFailedNotFound, danger)], st).
Proof.
  intros Hp Ha Hs. unfold undo. rewrite Hp, Ha. simpl. rewrite Hs.
  apply py_pop_Some in Hp. simpl. rewrite <- Hp. now destruct st.
Qed.

Lemma undo_delete :
  py_pop (undo_stack st) = Some (rest, e) ->
  e_action_type e = DELETE ->
  undo now st
  = (mkReply (Redirect admin_dashboard)
             [(UndoRestored (s_name (e_data e)), success)],
     set_redo_stack (py_append (redo_stack st) e)
       (log_action UNDO (s_name (e_data e)) (Some (e_student_id e))
          (Some (DetailsOriginal DELETE)) now
          (set_students
             (<[e_student_id e := student_of_data (e_data e)]> (students st))
             (set_undo_stack rest st)))).
Proof.
  intros Hp Ha. unfold undo. rewrite Hp, Ha. simpl.
  now destruct (students st !! e_student_id e).
Qed.

Lemma redo_delete_present s :
  py_pop (redo_stack st) = Some (rest, e) ->
  e_action_type e = DELETE ->
  students st !! e_student_id e = Some s ->
  redo now st
  = (mkReply (Redirect admin_dashboard)
             [(RedoDeleted (s_name (e_data e)), success)],
     set_undo_stack (py_append (undo_stack st) e)
       (log_action REDO (s_name (e_data e)) (Some (e_student_id e))
          (Some (DetailsOriginal DELETE)) now
          (set_students (delete (e_student_id e) (students st))
             (set_time_entries
                (delete_time_entries (e_student_id e) (time_entries st))
                (set_redo_stack rest st))))).
Proof. intros Hp Ha Hs. unfold redo. rewrite Hp, Ha. simpl. now rewrite Hs. Qed.

Lemma redo_delete_missing :
  py_pop (redo_stack st) = Some (rest, e) ->
  e_action_type e = DELETE ->
  students st !! e_student_id e = None ->
  redo now st
  = (mkReply (Redirect admin_dashboard) [], set_redo_stack rest st).
Proof. intros Hp Ha Hs. unfold redo. rewrite Hp, Ha. simpl. now rewrite Hs. Qed.

Lemma redo_edit_missing :
  py_pop (redo_stack st) = Some (rest, e) ->
  e_action_type e = EDIT ->
  students st !! e_student_id e = None ->
  redo now st
  = (mkReply (Redirect admin_dashboard) [], set_redo_stack rest st).
Proof. intros Hp Ha Hs. unfold redo. rewrite Hp, Ha. simpl. now rewrite Hs. Qed.

Lemma redo_add :
  py_pop (redo_stack st) = Some (rest, e) ->
  e_action_type e = ADD ->
  redo now st
  = (mkReply (Redirect admin_dashboard)
             [(RedoAdded (s_name (e_data e)), success)],
     set_undo_stack (py_append (undo_stack st) e)
       (log_action REDO (s_name (e_data e)) (Some (e_student_id e))
          (Some (DetailsOriginal ADD)) now
          (set_students
             (<[e_student_id e := student_of_data (e_data e)]> (students st))
             (set_redo_stack rest st)))).
Proof.
  intros Hp Ha. unfold redo. rewrite Hp, Ha. simpl.
  now destruct (students st !! e_student_id e).
Qed.
End Steps.

(** The EDIT branch of [undo] never touches the redo stack. *)
Lemma undo_edit_redo_stack now st rest e :
  py_pop (undo_stack st) = Some (rest, e) ->
  e_action_type e = EDIT ->
  redo_stack (undo now st).2 = redo_stack st.
Proof.
  intros Hp Ha. destruct (students st !! e_student_id e) as [s|] eqn:Hs.
  - now rewrite (undo_edit_present now st rest e s).
  - now rewrite (undo_edit_missing now st rest e).
Qed.

(** ** Undo, redo, undo again: the ADD and DELETE entries *)

Lemma undo_redo_undo_add t1 t2 t3 st rest e s :
  py_pop (undo_stack st) = Some (rest, e) ->
  e_action_type e = ADD ->
  students st !! e_student_id e = Some s ->
  students (undo t3 (redo t2 (undo t1 st).2).2).2 = students (undo t1 st).2.
Proof.
  intros Hp Ha Hs.
  rewrite (undo_add_present t1 st rest e s Hp Ha Hs). cbn [snd].
  match goal with |- context [redo t2 ?x] => set (st1 := x) end.
  rewrite (redo_add t2 st1 (redo_stack st) e); [|apply py_pop_append|exact Ha].
  cbn [snd].
  match goal with |- context [undo t3 ?x] => set (st2 := x) end.
  rewrite (undo_add_present t3 st2 rest e (student_of_data (e_data e)));
    [|apply py_pop_append|exact Ha|apply lookup_insert_eq].
  cbn. now rewrite !delete_insert_eq, delete_delete_eq.
Qed.

Lemma undo_redo_undo_delete t1 t2 t3 st rest e :
  py_pop (undo_stack st) = Some (rest, e) ->
  e_action_type e = DELETE ->
  students (undo t3 (redo t2 (undo t1 st).2).2).2 = students (undo t1 st).2.
Proof.
  intros Hp Ha.
  rewrite (undo_delete t1 st rest e Hp Ha). cbn [snd].
  match goal with |- context [redo t2 ?x] => set (st1 := x) end.
  rewrite (redo_delete_present t2 st1 (redo_stack st) e
             (student_of_data (e_data e)));
    [|apply py_pop_append|exact Ha|apply lookup_insert_eq].
  cbn [snd].
  match goal with |- context [undo t3 ?x] => set (st2 := x) end.
  rewrite (undo_delete t3 st2 rest e); [|apply py_pop_append|exact Ha].
  cbn. now rewrite insert_delete_eq, insert_insert_eq.
Qed.

(** Right after the routes that record an ADD or a DELETE, the round trip
    holds. *)
Lemma undo_redo_undo_after_add n p t c pic t0 t1 t2 t3 st :
  let st' := (add_student n p t c pic t0 st).2 in
  students (undo t3 (redo t2 (undo t1 st').2).2).2 = students (undo t1 st').2.
Proof.
  intros st'.
  apply (undo_redo_undo_add t1 t2 t3 st' (undo_stack st)
           (mkEntry (next_id (student_ids (students st))) ADD
                    (mkSnapshot None n p t c pic))
           (mkStudent n p t c pic)).
  - apply py_pop_append.
  - reflexivity.
  - apply lookup_insert_eq.
Qed.

Lemma undo_redo_undo_after_delete id s t0 t1 t2 t3 st :
  students st !! id = Some s ->
  let st' := (delete_student id t0 st).2 in
  students (undo t3 (redo t2 (undo t1 st').2).2).2 = students (undo t1 st').2.
Proof.
  intros Hs st'. subst st'. unfold delete_student. rewrite Hs.
  apply (undo_redo_undo_delete t1 t2 t3 _ (undo_stack st)
           (mkEntry id DELETE (get_student_snapshot id s))).
  - apply py_pop_append.
  - reflexivity.
Qed.

(** ** C1: a target that is gone *)

(** C1.  The top of the undo stack is an EDIT of student 7 and the store has
    no student 7.  [undo] pops the entry, takes the EDIT branch, finds no
    student and returns: nothing is flashed and the entry is not put back, so
    the undo stack is shorter than before the call.  [redo] does the same with
    an EDIT or a DELETE entry on the redo stack.  (The ADD branch of [undo],
    lemma [undo_add_missing], is the one that reports the failure and restores
    the stack.) *)
Theorem missing_target_entry_is_dropped :
  students st_edit_of_missing !! 7 = None /\
  undo_stack st_edit_of_missing = [mkEntry 7 EDIT gone_snapshot] /\
  undo 1 st_edit_of_missing
  = (mkReply (Redirect admin_dashboard) [], initial_state) /\
  undo_stack (undo 1 st_edit_of_missing).2 <> undo_stack st_edit_of_missing /\
  redo_stack (st_redo_of_missing DELETE) = [mkEntry 7 DELETE gone_snapshot] /\
  redo 1 (st_redo_of_missing DELETE)
  = (mkReply (Redirect admin_dashboard) [], initial_state) /\
  redo 1 (st_redo_of_missing EDIT)
  = (mkReply (Redirect admin_dashboard) [], initial_state).
Proof. repeat split; try reflexivity. discriminate. Qed.

(** ** C2: redo after the undo of an EDIT *)

(** C2.  Student A (10 target hours, 0 completed) is added and then edited to
    5 completed hours.  [undo] restores 0 completed hours and leaves the redo
    stack empty, so the following [redo] answers "Nothing to redo." and the
    store keeps 0 completed hours: the edit is not re-applied. *)
Theorem undone_edit_cannot_be_redone :
  students st_edited !! 1 = Some (mkStudent (py "A") None 10 5 None) /\
  students (undo 102 st_edited).2 !! 1
  = Some (mkStudent (py "A") None 10 0 None) /\
  redo_stack (undo 102 st_edited).2 = [] /\
  redo 103 (undo 102 st_edited).2 = (nothing_to_redo, (undo 102 st_edited).2) /\
  students (redo 103 (undo 102 st_edited).2).2 !! 1
  = Some (mkStudent (py "A") None 10 0 None).
Proof. repeat split; reflexivity. Qed.

(** ** C3: undo, redo, undo after an EDIT *)

(** C3.  After add A, edit A: a single [undo] leaves A in the store with its
    values from before the edit; [undo], [redo], [undo] leaves the store
    without A, because the [redo] finds nothing and the second [undo] consumes
    the entry of the earlier ADD. *)
Theorem undo_redo_undo_after_edit_differs :
  students (undo 102 st_edited).2
  = {[ 1 := mkStudent (py "A") None 10 0 None ]} /\
  students (undo 104 (redo 103 (undo 102 st_edited).2).2).2 = ∅ /\
  students (undo 104 (redo 103 (undo 102 st_edited).2).2).2
  <> students (undo 102 st_edited).2.
Proof.
  split; [reflexivity|]. split; [reflexivity|].
  intros H. apply (f_equal (fun m => m !! 1)) in H. discriminate H.
Qed.

(** ** C7: the audit queue is a ring buffer of 100 entries *)

Section Deque.
Context {A : Type}.
Implicit Types (q es : list A) (x : A).

Lemma tail_drop q : tail q = drop 1 q.
Proof. now destruct q. Qed.

Lemma deque_append_room maxlen q x :
  (length q < maxlen)%nat -> deque_append maxlen q x = q ++ [x].
Proof.
  intros H. unfold deque_append. rewrite length_app. simpl.
  destruct (Nat.ltb_spec maxlen (length q + 1)); [lia|reflexivity].
Qed.

Lemma deque_append_full maxlen q x :
  (0 < maxlen)%nat ->
  length q = maxlen -> deque_append maxlen q x = tail q ++ [x].
Proof.
  intros Hpos H. unfold deque_append. rewrite length_app. simpl.
  destruct (Nat.ltb_spec maxlen (length q + 1)); [|lia].
  destruct q; [simpl in H; lia|reflexivity].
Qed.

Lemma deque_append_length maxlen q x :
  (length q <= maxlen)%nat ->
  (length (deque_append maxlen q x) <= maxlen)%nat.
Proof.
  intros H. unfold deque_append.
  destruct (Nat.ltb_spec maxlen (length (q ++ [x]))) as [Hlt|Hle];
    [|exact Hle].
  rewrite tail_drop, length_drop. rewrite length_app in *. simpl in *. lia.
Qed.

(** Appending [es] one by one keeps the last [maxlen] items of [q ++ es]. *)
Lemma foldl_deque_append maxlen es : forall q,
  (length q <= maxlen)%nat ->
  foldl (deque_append maxlen) q es
  = drop (length q + length es - maxlen) (q ++ es).
Proof.
  induction es as [|e es IH]; intros q Hq; simpl.
  - rewrite app_nil_r. replace (length q + 0 - maxlen)%nat with 0%nat by lia.
    reflexivity.
  - rewrite IH by now apply deque_append_length.
    unfold deque_append.
    destruct (Nat.ltb_spec maxlen (length (q ++ [e]))) as [Hlt|Hle];
      rewrite length_app in *; simpl in *.
    + rewrite tail_drop, length_drop, length_app. simpl.
      replace (length q + 1 - 1 + length es - maxlen)%nat
        with (length es) by lia.
      replace (length q + S (length es) - maxlen)%nat
        with (1 + length es)%nat by lia.
      rewrite <- drop_drop. f_equal.
      change (q ++ e :: es) with (q ++ [e] ++ es).
      rewrite (app_assoc q [e] es), (drop_app_le (q ++ [e])).
      * reflexivity.
      * rewrite length_app. simpl. lia.
    + rewrite <- app_assoc. simpl. f_equal. lia.
Qed.
End Deque.

(** [run_log] adds one stored row per call, and feeds the queue with the
    lightweight copy of each row, in order. *)
Lemma run_log_rows calls : forall st,
  exists rows,
    length rows = length calls /\
    action_logs (run_log calls st) = action_logs st ++ rows /\
    action_log_queue (run_log calls st)
    = foldl (deque_append action_log_maxlen) (action_log_queue st)
            (to_queue_entry <$> rows).
Proof.
  induction calls as [|c calls IH]; intros st.
  - exists []. simpl. now rewrite app_nil_r.
  - destruct (IH (log_action (lc_action c) (lc_name c) (lc_sid c)
                    (lc_details c) (lc_now c) st)) as (rows & Hlen & Hlogs & Hq).
    eexists (_ :: rows). split; [simpl; now rewrite Hlen|]. split.
    + simpl. rewrite Hlogs. simpl. now rewrite <- app_assoc.
    + simpl. rewrite Hq. reflexivity.
Qed.

(** C7.  Starting from a queue of at most 100 entries (it is empty when the
    process starts), after any sequence of [log_action] calls the queue holds
    at most 100 entries and is exactly the last 100 of: the old queue followed
    by one lightweight entry per call, in call order.  One call on a queue
    with room appends its entry; one call on a queue of 100 entries drops the
    oldest entry and appends its own. *)
Theorem audit_queue_bounded_fifo (calls : list log_call) (st0 : state) :
  (length (action_log_queue st0) <= 100)%nat ->
  let st := run_log calls st0 in
  let appended :=
    to_queue_entry <$> drop (length (action_logs st0)) (action_logs st) in
  length appended = length calls /\
  (length (action_log_queue st) <= 100)%nat /\
  action_log_queue st
  = drop (length (action_log_queue st0) + length calls - 100)
         (action_log_queue st0 ++ appended) /\
  (forall a n sid d now,
      let st1 := log_action a n sid d now st0 in
      let e := mkQueueEntry (next_id (al_id <$> action_logs st0)) a n sid now in
      ((length (action_log_queue st0) < 100)%nat ->
       action_log_queue st1 = action_log_queue st0 ++ [e]) /\
      (length (action_log_queue st0) = 100%nat ->
       action_log_queue st1 = tail (action_log_queue st0) ++ [e])).
Proof.
  intros Hq st appended. subst st appended.
  destruct (run_log_rows calls st0) as (rows & Hlen & Hlogs & Hqueue).
  rewrite Hlogs, drop_app_length, length_fmap, Hqueue.
  rewrite foldl_deque_append by exact Hq.
  rewrite length_fmap, Hlen. split; [reflexivity|]. split; [|split].
  - rewrite length_drop, length_app, length_fmap, Hlen.
    change action_log_maxlen with 100%nat. lia.
  - reflexivity.
  - intros a n sid d now st1 e. split; intros H.
    + apply (deque_append_room action_log_maxlen). exact H.
    + apply (deque_append_full action_log_maxlen); [|exact H].
      unfold action_log_maxlen. lia.
Qed.

Lemma audit_queue_bounded_fifo_witness :
  (length (action_log_queue initial_state) <= 100)%nat /\
  (length (action_log_queue (run_log calls_101 initial_state)) <= 100)%nat /\
  q_student_id <$> head (action_log_queue (run_log calls_101 initial_state))
  = Some (Some 2).
Proof.
  assert (length (action_log_queue initial_state) <= 100)%nat as H
    by (simpl; lia).
  split; [exact H|]. split.
  - exact (proj1 (proj2 (audit_queue_bounded_fifo calls_101 initial_state H))).
  - vm_compute. reflexivity.
Defined.

(** ** C8: clock-in while an entry is open *)

Lemma find_None_filter {A} (f : A -> bool) (l : list A) :
  List.find f l = None -> List.filter f l = [].
Proof.
  induction l as [|x l IH]; simpl; [reflexivity|].
  destruct (f x); [discriminate|exact IH].
Qed.

Lemma open_entry_of_exists id l e :
  e ∈ l -> te_student_id e = id -> te_clock_out e = None ->
  exists e', open_entry_of id l = Some e'.
Proof.
  intros Hin Hid Hout. unfold open_entry_of.
  destruct (List.find (is_open_for id) l) as [e'|] eqn:E; [eauto|].
  exfalso. apply list_elem_of_In in Hin.
  pose proof (find_none _ _ E e Hin) as Hf. unfold is_open_for in Hf.
  rewrite Hid, Hout, Z.eqb_refl in Hf. discriminate.
Qed.

Lemma open_entries_new_entry i id k now st :
  open_entries i (set_time_entries
                    (time_entries st ++ [mkTimeEntry k id now None]) st)
  = open_entries i st ++ (if i =? id then [mkTimeEntry k id now None] else []).
Proof.
  unfold open_entries. simpl. rewrite List.filter_app. simpl.
  unfold is_open_for at 2. simpl. rewrite (Z.eqb_sym id i).
  now destruct (i =? id).
Qed.

Lemma new_entry_keeps_one_open id k now st :
  open_entry_of id (time_entries st) = None ->
  one_open_entry_each st ->
  one_open_entry_each
    (set_time_entries (time_entries st ++ [mkTimeEntry k id now None]) st).
Proof.
  intros Hnone Hinv i. rewrite open_entries_new_entry, length_app.
  destruct (Z.eqb_spec i id) as [->|Hne]; simpl.
  - unfold open_entries. rewrite (find_None_filter _ _ Hnone). simpl. lia.
  - specialize (Hinv i). lia.
Qed.

Lemma clock_in_keeps_one_open id now st :
  one_open_entry_each st -> one_open_entry_each (clock_in id now st).2.
Proof.
  intros Hinv. unfold clock_in.
  destruct (students st !! id); [|exact Hinv].
  destruct (open_entry_of id (time_entries st)) eqn:E; [exact Hinv|].
  now apply new_entry_keeps_one_open.
Qed.

Lemma student_clock_in_keeps_one_open sid now st :
  one_open_entry_each st ->
  one_open_entry_each (student_clock_in sid now st).2.
Proof.
  intros Hinv. unfold student_clock_in.
  destruct sid as [i|]; [|exact Hinv].
  destruct (not_sid (Some i)); [exact Hinv|].
  destruct (students st !! i) as [s|]; [|exact Hinv].
  destruct (hours_reached s); [exact Hinv|].
  destruct (open_entry_of i (time_entries st)) eqn:E; [exact Hinv|].
  now apply new_entry_keeps_one_open.
Qed.

(** C8.  For a student in the store: (1) when one of the student's time
    entries is open, the administrative route answers "already clocked in" and
    the self-service route redirects with a rejection (or to the login page
    for the session value 0), both leaving the state as it was; (2) both
    routes keep "at most one open entry per student"; (3) when the student
    has reached the target hours and has no open entry, the self-service route
    refuses and changes nothing while the administrative route adds an open
    entry. *)
Theorem clock_in_open_entry_rules (id now : Z) (st : state) (s : Student) :
  students st !! id = Some s ->
  ((exists e, e ∈ time_entries st /\ te_student_id e = id /\
              te_clock_out e = None) ->
   clock_in id now st = (mkReply TextAlreadyClockedIn [], st) /\
   student_clock_in (Some id) now st
   = (if id =? 0 then mkReply (Redirect student_login) []
      else if hours_reached s
           then mkReply (Redirect student_dashboard)
                        [(AlreadyCompletedHours, message)]
           else mkReply (Redirect student_dashboard)
                        [(YouAreAlreadyClockedIn, message)],
      st)) /\
  (one_open_entry_each st ->
   one_open_entry_each (clock_in id now st).2 /\
   one_open_entry_each (student_clock_in (Some id) now st).2) /\
  (open_entry_of id (time_entries st) = None ->
   hours_reached s = true -> id <> 0 ->
   student_clock_in (Some id) now st
   = (mkReply (Redirect student_dashboard) [(AlreadyCompletedHours, message)],
      st) /\
   clock_in id now st
   = (mkReply (TextClockedIn now) [],
      set_time_entries
        (time_entries st
         ++ [mkTimeEntry (next_id (te_id <$> time_entries st)) id now None])
        st)).
Proof.
  intros Hs. split; [|split].
  - intros (e & Hin & Hid & Hout).
    destruct (open_entry_of_exists id _ e Hin Hid Hout) as [e' He'].
    unfold clock_in, student_clock_in. rewrite Hs, He'. simpl.
    split; [reflexivity|].
    destruct (id =? 0); [reflexivity|]. now destruct (hours_reached s).
  - intros Hinv. split.
    + now apply clock_in_keeps_one_open.
    + now apply student_clock_in_keeps_one_open.
  - intros Hnone Hreached Hid. unfold clock_in, student_clock_in.
    rewrite Hs, Hnone, Hreached. simpl.
    destruct (Z.eqb_spec id 0); [contradiction|]. split; reflexivity.
Qed.

Lemma clock_in_open_entry_rules_witness :
  students st_clock !! 2 = Some (mkStudent (py "B") None 10 3 None) /\
  clock_in 2 1000 st_clock = (mkReply TextAlreadyClockedIn [], st_clock) /\
  student_clock_in (Some 2) 1000 st_clock
  = (mkReply (Redirect student_dashboard) [(YouAreAlreadyClockedIn, message)],
     st_clock) /\
  length (time_entries (clock_in 1 1000 st_clock).2) = 3%nat /\
  student_clock_in (Some 1) 1000 st_clock
  = (mkReply (Redirect student_dashboard) [(AlreadyCompletedHours, message)],
     st_clock).
Proof.
  pose proof (clock_in_open_entry_rules 2 1000 st_clock
                (mkStudent (py "B") None 10 3 None) eq_refl) as (H1 & _ & _).
  pose proof (clock_in_open_entry_rules 1 1000 st_clock
                (mkStudent (py "A") None 10 10 None) eq_refl) as (_ & _ & H3).
  destruct H1 as [Ha Hb].
  { exists (mkTimeEntry 2 2 950 None). split; [|split; reflexivity].
    apply list_elem_of_In. simpl. auto. }
  destruct (H3 eq_refl eq_refl) as [Hc Hd]; [discriminate|].
  split; [reflexivity|]. split; [exact Ha|]. split; [exact Hb|].
  split; [rewrite Hd; reflexivity|exact Hc].
Defined.

(** ** C5: ties in the listing sort *)

(** C5.  Two students with equal values under every sort key, listed as
    student 1 then student 2, come out as student 2 then student 1 for each of
    the six supported keys and both directions: on a tie [merge] takes the
    element of the right half first, so equal keys do not keep their input
    order. *)
Theorem listing_sort_swaps_ties :
  Forall (fun sort =>
            forall reverse,
              sort_students ascii_lower sort reverse [twin_1; twin_2]
              = [twin_2; twin_1])
         supported_sort_keys.
Proof.
  repeat constructor; intros []; reflexivity.
Qed.

(** ** C6 and C10: binary prefix search *)

(** C6.  The example of the specification holds: searching "jo" over Jon,
    Joanna, Bob (sorted by lowercased name first) returns Joanna, Jon.  But
    over the sorted list Bob, Joanna, "Jo" followed by U+1F600, the search
    for "jo" returns Joanna only, although the third lowercased name starts
    with "jo": that name compares above the high key "jo" + U+FFFF, so the
    second binary search cuts it off. *)
Theorem prefix_search_misses_name_above_high_key :
  search_binary ascii_lower example_students (py "jo")
  = [named 2 (py "Joanna"); named 1 (py "Jon")] /\
  merge_sort str_ltb (fun x : student_obj => ascii_lower (name x.2)) false
             astral_sorted = astral_sorted /\
  startswith (ascii_lower astral_name) (ascii_lower (py "jo")) = true /\
  binary_prefix_search_students ascii_lower astral_sorted (py "jo")
  = [named 2 (py "Joanna")].
Proof. repeat split; reflexivity. Qed.

(** C10.  With an empty prefix (and a [lower] that maps the empty string to
    itself, as [str.lower] does) the search returns the whole input list,
    whatever it is. *)
Theorem prefix_search_empty_prefix_returns_all
    (lower : pystr -> pystr) (students : list student_obj) :
  lower [] = [] ->
  binary_prefix_search_students lower students [] = students.
Proof.
  intros H. unfold binary_prefix_search_students. now rewrite H.
Qed.

Lemma prefix_search_empty_prefix_returns_all_witness :
  ascii_lower [] = [] /\
  binary_prefix_search_students ascii_lower example_students []
  = example_students.
Proof.
  split; [reflexivity|].
  apply prefix_search_empty_prefix_returns_all. reflexivity.
Defined.

(** * Further properties of the history routes *)

Lemma student_of_snapshot id s :
  student_of_data (get_student_snapshot id s) = s.
Proof. now destruct s. Qed.

(** X1.  Undoing an add: right after [add_student], one [undo] gives back
    the student table and the undo stack from before the add, and leaves the
    entry of the add alone on the redo stack. *)
Theorem undo_after_add n p t c pic t0 t1 st :
  let st' := (undo t1 (add_student n p t c pic t0 st).2).2 in
  students st' = students st /\
  undo_stack st' = undo_stack st /\
  redo_stack st'
  = [mkEntry (next_id (student_ids (students st))) ADD
             (mkSnapshot None n p t c pic)].
Proof.
  intros st'. subst st'.
  rewrite (undo_add_present t1 _ (undo_stack st)
             (mkEntry (next_id (student_ids (students st))) ADD
                      (mkSnapshot None n p t c pic))
             (mkStudent n p t c pic));
    [|apply py_pop_append|reflexivity|apply lookup_insert_eq].
  cbn. rewrite delete_insert_eq, delete_id by apply next_id_fresh.
  repeat split.
Qed.

(** X2.  Undoing an edit: for a student in the store, [edit_student] followed
    by [undo] gives back exactly the student table and the undo stack from
    before the edit (the picture reference included). *)
Theorem undo_after_edit id s n p t c up t0 t1 st :
  students st !! id = Some s ->
  let st' := (undo t1 (edit_student id n p t c up t0 st).2).2 in
  students st' = students st /\ undo_stack st' = undo_stack st.
Proof.
  intros Hs st'. subst st'. unfold edit_student. rewrite Hs. cbn [snd].
  match goal with |- context [undo t1 ?x] => set (st1 := x) end.
  rewrite (undo_edit_present t1 st1 (undo_stack st)
             (mkEntry id EDIT (get_student_snapshot id s))
             (mkStudent n p t c
                (match up with Some f => Some f | None => picture s end)));
    [|apply py_pop_append|reflexivity|apply lookup_insert_eq].
  cbn -[get_student_snapshot student_of_data].
  rewrite student_of_snapshot, insert_insert_eq, insert_id by exact Hs.
  split; reflexivity.
Qed.

Lemma undo_after_edit_witness :
  students st_added !! 1 = Some (mkStudent (py "A") None 10 0 None) /\
  students (undo 102 st_edited).2 = students st_added /\
  undo_stack (undo 102 st_edited).2 = undo_stack st_added.
Proof.
  split; [reflexivity|].
  apply (undo_after_edit 1 (mkStudent (py "A") None 10 0 None)
           (py "A") None 10 5 None 101 102 st_added).
  reflexivity.
Defined.

(** X3.  Undoing a delete: for a student in the store, [delete_student]
    followed by [undo] gives back exactly the student table and the undo
    stack, but the student's time entries stay deleted. *)
Theorem undo_after_delete id s t0 t1 st :
  students st !! id = Some s ->
  let st' := (undo t1 (delete_student id t0 st).2).2 in
  students st' = students st /\
  undo_stack st' = undo_stack st /\
  time_entries st' = delete_time_entries id (time_entries st).
Proof.
  intros Hs st'. subst st'. unfold delete_student. rewrite Hs. cbn [snd].
  match goal with |- context [undo t1 ?x] => set (st1 := x) end.
  rewrite (undo_delete t1 st1 (undo_stack st)
             (mkEntry id DELETE (get_student_snapshot id s)));
    [|apply py_pop_append|reflexivity].
  cbn -[get_student_snapshot student_of_data].
  rewrite student_of_snapshot, insert_delete_id by exact Hs.
  repeat split.
Qed.

Lemma undo_after_delete_witness :
  students st_clock !! 2 = Some (mkStudent (py "B") None 10 3 None) /\
  students (undo 21 (delete_student 2 20 st_clock).2).2 = students st_clock /\
  time_entries (undo 21 (delete_student 2 20 st_clock).2).2
  = [mkTimeEntry 1 1 500 (Some 900)].
Proof.
  split; [reflexivity|].
  destruct (undo_after_delete 2 (mkStudent (py "B") None 10 3 None) 20 21
              st_clock eq_refl) as (H1 & _ & H3).
  split; [exact H1|exact H3].
Defined.

(** ** Any number of mutations, then as many undos *)

Lemma same_history_refl st : same_history st st.
Proof. split; reflexivity. Qed.

Lemma same_history_trans a b c :
  same_history a b -> same_history b c -> same_history a c.
Proof. intros [H1 H2] [H3 H4]. split; congruence. Qed.

(** What [undo] does to the student table and to the undo stack depends on
    these two only. *)
Lemma undo_same_history t t' a b :
  same_history a b -> same_history (undo t a).2 (undo t' b).2.
Proof.
  destruct a as [ma tea la qa ua ra], b as [mb teb lb qb ub rb].
  intros [Hm Hu]. simpl in Hm, Hu. subst mb ub.
  unfold undo. simpl.
  destruct (py_pop ua) as [[rest e]|]; [|split; reflexivity].
  simpl. destruct (e_action_type e); simpl;
    try destruct (ma !! e_student_id e); simpl; split; reflexivity.
Qed.

Lemma undo_all_same_history nows : forall a b,
  same_history a b -> same_history (undo_all nows a) (undo_all nows b).
Proof.
  induction nows as [|t nows IH]; intros a b H; simpl; [exact H|].
  apply IH. now apply undo_same_history.
Qed.

Lemma add_then_undo n p t c pic t0 t1 st :
  same_history (undo t1 (add_student n p t c pic t0 st).2).2 st.
Proof.
  rewrite (undo_add_present t1 _ (undo_stack st)
             (mkEntry (next_id (student_ids (students st))) ADD
                      (mkSnapshot None n p t c pic))
             (mkStudent n p t c pic));
    [|apply py_pop_append|reflexivity|apply lookup_insert_eq].
  split; cbn; [|reflexivity].
  now rewrite delete_insert_eq, delete_id by apply next_id_fresh.
Qed.

Lemma edit_then_undo id n p t c up t0 t1 st :
  is_Some (students st !! id) ->
  same_history (undo t1 (edit_student id n p t c up t0 st).2).2 st.
Proof.
  intros [s Hs]. unfold edit_student. rewrite Hs. cbn [snd].
  match goal with |- context [undo t1 ?x] => set (st1 := x) end.
  rewrite (undo_edit_present t1 st1 (undo_stack st)
             (mkEntry id EDIT (get_student_snapshot id s))
             (mkStudent n p t c
                (match up with Some f => Some f | None => picture s end)));
    [|apply py_pop_append|reflexivity|apply lookup_insert_eq].
  split; cbn -[get_student_snapshot student_of_data]; [|reflexivity].
  now rewrite student_of_snapshot, insert_insert_eq, insert_id by exact Hs.
Qed.

Lemma delete_then_undo id t0 t1 st :
  is_Some (students st !! id) ->
  same_history (undo t1 (delete_student id t0 st).2).2 st.
Proof.
  intros [s Hs]. unfold delete_student. rewrite Hs. cbn [snd].
  match goal with |- context [undo t1 ?x] => set (st1 := x) end.
  rewrite (undo_delete t1 st1 (undo_stack st)
             (mkEntry id DELETE (get_student_snapshot id s)));
    [|apply py_pop_append|reflexivity].
  split; cbn -[get_student_snapshot student_of_data]; [|reflexivity].
  now rewrite student_of_snapshot, insert_delete_id by exact Hs.
Qed.

(** A mutating request either answers 404 and leaves the history alone, or
    pushes one entry that the next [undo] takes back. *)
Lemma mutate_then_undo t req st :
  same_history (mutate st req) st \/
  (length (undo_stack (mutate st req)) = S (length (undo_stack st)) /\
   same_history (undo t (mutate st req)).2 st).
Proof.
  destruct req as [t0 [n p tt c pic|id n p tt c up|id]]; unfold mutate; simpl.
  - right. split; [|apply add_then_undo].
    cbn. unfold py_append. rewrite length_app. simpl. lia.
  - destruct (students st !! id) as [s|] eqn:Hs.
    + right. split; [|apply edit_then_undo; eauto].
      unfold edit_student. rewrite Hs. cbn. unfold py_append.
      rewrite length_app. simpl. lia.
    + left. unfold edit_student. rewrite Hs. apply same_history_refl.
  - destruct (students st !! id) as [s|] eqn:Hs.
    + right. split; [|apply delete_then_undo; eauto].
      unfold delete_student. rewrite Hs. cbn. unfold py_append.
      rewrite length_app. simpl. lia.
    + left. unfold delete_student. rewrite Hs. apply same_history_refl.
Qed.

Lemma run_mutations_stack_grows reqs : forall st,
  (length (undo_stack st) <= length (undo_stack (run_mutations reqs st)))%nat.
Proof.
  induction reqs as [|req reqs IH]; intros st; simpl; [lia|].
  etransitivity; [|apply IH].
  destruct (mutate_then_undo 0 req st) as [[_ H]|[H _]]; rewrite H; lia.
Qed.

(** X4.  Any sequence of add, edit and delete requests (requests for a missing
    student answer 404 and record nothing), followed by as many undo requests
    as entries were recorded, brings the student table and the undo stack back
    to what they were before the sequence. *)
Theorem undo_all_after_mutations (reqs : list (Z * mutation)) (nows : list Z)
    (st : state) :
  length nows
  = (length (undo_stack (run_mutations reqs st)) - length (undo_stack st))%nat ->
  same_history (undo_all nows (run_mutations reqs st)) st.
Proof.
  revert nows st. induction reqs as [|req reqs IH] using rev_ind;
    intros nows st Hlen.
  - simpl in *. rewrite Nat.sub_diag in Hlen. destruct nows; [|discriminate].
    apply same_history_refl.
  - unfold run_mutations in *. rewrite foldl_app in *. simpl in *.
    set (st1 := foldl mutate st reqs) in *.
    pose proof (run_mutations_stack_grows reqs st) as Hgrow.
    fold st1 in Hgrow. unfold run_mutations in Hgrow. fold st1 in Hgrow.
    destruct nows as [|t nows].
    + destruct (mutate_then_undo 0 req st1) as [Hsame|[Hpush _]].
      * eapply same_history_trans; [exact Hsame|].
        apply (IH [] st). destruct Hsame as [_ Hu]. rewrite Hu in Hlen.
        exact Hlen.
      * simpl in Hlen. lia.
    + destruct (mutate_then_undo t req st1) as [Hsame|[Hpush Hundo]].
      * eapply same_history_trans;
          [apply (undo_all_same_history (t :: nows) _ st1 Hsame)|].
        apply (IH (t :: nows) st). destruct Hsame as [_ Hu].
        rewrite Hu in Hlen. exact Hlen.
      * simpl. eapply same_history_trans;
          [apply (undo_all_same_history nows _ st1 Hundo)|].
        apply (IH nows st). simpl in Hlen. rewrite Hpush in Hlen.
        subst st1. lia.
Qed.

Lemma undo_all_after_mutations_witness :
  length [204; 205; 206]
  = (length (undo_stack (run_mutations sample_requests st_clock))
     - length (undo_stack st_clock))%nat /\
  same_history
    (undo_all [204; 205; 206] (run_mutations sample_requests st_clock))
    st_clock.
Proof.
  split; [reflexivity|].
  apply undo_all_after_mutations. reflexivity.
Defined.

(** ** Redo after undo *)



(** ** What undo and redo leave alone *)

(** X6.  [undo] and [redo] never touch a student other than the one named by
    the entry they pop: every other row of the student table is unchanged
    (and with an empty stack nothing changes at all). *)
Theorem undo_redo_touch_one_student (now : Z) (st : state) (j : Z) :
  (forall rest e, py_pop (undo_stack st) = Some (rest, e) ->
                  j <> e_student_id e ->
                  students (undo now st).2 !! j = students st !! j) /\
  (forall rest e, py_pop (redo_stack st) = Some (rest, e) ->
                  j <> e_student_id e ->
                  students (redo now st).2 !! j = students st !! j) /\
  (undo_stack st = [] -> (undo now st).2 = st) /\
  (redo_stack st = [] -> (redo now st).2 = st).
Proof.
  split; [|split; [|split]].
  - intros rest e Hp Hj. unfold undo. rewrite Hp. simpl.
    destruct (e_action_type e); simpl;
      try destruct (students st !! e_student_id e); simpl;
      rewrite ?lookup_insert_ne, ?lookup_delete_ne by congruence; reflexivity.
  - intros rest e Hp Hj. unfold redo. rewrite Hp. simpl.
    destruct (e_action_type e); simpl;
      try destruct (students st !! e_student_id e); simpl;
      rewrite ?lookup_insert_ne, ?lookup_delete_ne by congruence; reflexivity.
  - intros H. unfold undo. now rewrite H.
  - intros H. unfold redo. now rewrite H.
Qed.

Lemma undo_redo_touch_one_student_witness :
  py_pop (undo_stack (delete_student 2 20 st_clock).2)
  = Some ([], mkEntry 2 DELETE
                (mkSnapshot (Some 2) (py "B") None 10 3 None)) /\
  students (undo 21 (delete_student 2 20 st_clock).2).2 !! 1
  = students (delete_student 2 20 st_clock).2 !! 1.
Proof.
  split; [reflexivity|].
  apply (proj1 (undo_redo_touch_one_student 21
                  (delete_student 2 20 st_clock).2 1)
           [] (mkEntry 2 DELETE (mkSnapshot (Some 2) (py "B") None 10 3 None))).
  - reflexivity.
  - discriminate.
Defined.

(** * The audit log across the routes *)

Lemma undo_logs_at_most_one now st :
  logs_at_most_one UNDO st (undo now st).2.
Proof.
  destruct st as [m te l q u r]. unfold undo, logs_at_most_one. simpl.
  destruct (py_pop u) as [[rest e]|]; simpl; [|now left].
  destruct (e_action_type e); simpl;
    try destruct (m !! e_student_id e); simpl;
    first [now left | right; do 4 eexists; reflexivity].
Qed.

Lemma redo_logs_at_most_one now st :
  logs_at_most_one REDO st (redo now st).2.
Proof.
  destruct st as [m te l q u r]. unfold redo, logs_at_most_one. simpl.
  destruct (py_pop r) as [[rest e]|]; simpl; [|now left].
  destruct (e_action_type e); simpl;
    try destruct (m !! e_student_id e); simpl;
    first [now left | right; do 4 eexists; reflexivity].
Qed.

Lemma mutate_logs_at_most_one req st :
  exists a, logs_at_most_one a st (mutate st req).
Proof.
  destruct st as [m te l q u r].
  destruct req as [t0 [n p tt c pic|id n p tt c up|id]];
    unfold mutate, add_student, edit_student, delete_student,
      logs_at_most_one; simpl.
  - exists ADD. right. do 4 eexists. reflexivity.
  - exists EDIT. destruct (m !! id); simpl;
      [right; do 4 eexists; reflexivity|now left].
  - exists DELETE. destruct (m !! id); simpl;
      [right; do 4 eexists; reflexivity|now left].
Qed.

Lemma clock_in_audit id now st : audit (clock_in id now st).2 = audit st.
Proof.
  unfold clock_in. destruct (students st !! id); [|reflexivity].
  now destruct (open_entry_of id (time_entries st)).
Qed.

Lemma student_clock_in_audit sid now st :
  audit (student_clock_in sid now st).2 = audit st.
Proof.
  unfold student_clock_in. destruct sid as [i|]; [|reflexivity].
  destruct (not_sid (Some i)); [reflexivity|].
  destruct (students st !! i) as [s|]; [|reflexivity].
  destruct (hours_reached s); [reflexivity|].
  now destruct (open_entry_of i (time_entries st)).
Qed.

Lemma logs_at_most_one_prefix a st st' :
  logs_at_most_one a st st' -> action_logs st `prefix_of` action_logs st'.
Proof.
  intros [H|(n & sid & d & now & H)]; apply (f_equal fst) in H; simpl in H;
    rewrite H; [reflexivity|]. now apply prefix_app_r.
Qed.

(** X7.  The stored audit log is append-only across the routes: after an add,
    edit or delete request, after [undo] and after [redo] the old log is a
    prefix of the new one, and the two clock-in routes leave it as it is. *)
Theorem audit_log_append_only (now : Z) (st : state) :
  (forall req, action_logs st `prefix_of` action_logs (mutate st req)) /\
  action_logs st `prefix_of` action_logs (undo now st).2 /\
  action_logs st `prefix_of` action_logs (redo now st).2 /\
  (forall id, action_logs (clock_in id now st).2 = action_logs st) /\
  (forall sid, action_logs (student_clock_in sid now st).2 = action_logs st).
Proof.
  split; [|split; [|split; [|split]]].
  - intros req. destruct (mutate_logs_at_most_one req st) as [a H].
    exact (logs_at_most_one_prefix _ _ _ H).
  - exact (logs_at_most_one_prefix _ _ _ (undo_logs_at_most_one now st)).
  - exact (logs_at_most_one_prefix _ _ _ (redo_logs_at_most_one now st)).
  - intros id. exact (f_equal fst (clock_in_audit id now st)).
  - intros sid. exact (f_equal fst (student_clock_in_audit sid now st)).
Qed.

(** X8.  No silent change by [undo] or [redo]: whenever one of them changes
    the student table, it has appended exactly one row to the audit log, of
    kind UNDO (respectively REDO), naming the student of the popped entry. *)
Theorem undo_redo_change_is_logged (now : Z) (st : state) :
  (students (undo now st).2 <> students st ->
   exists rest e row,
     py_pop (undo_stack st) = Some (rest, e) /\
     action_logs (undo now st).2 = action_logs st ++ [row] /\
     al_action_type row = UNDO /\
     al_student_id row = Some (e_student_id e) /\
     al_details row = Some (DetailsOriginal (e_action_type e))) /\
  (students (redo now st).2 <> students st ->
   exists rest e row,
     py_pop (redo_stack st) = Some (rest, e) /\
     action_logs (redo now st).2 = action_logs st ++ [row] /\
     al_action_type row = REDO /\
     al_student_id row = Some (e_student_id e) /\
     al_details row = Some (DetailsOriginal (e_action_type e))).
Proof.
  split.
  - unfold undo. destruct (py_pop (undo_stack st)) as [[rest e]|];
      [|intros H; now contradiction H].
    simpl. destruct (e_action_type e) eqn:Ha; simpl;
      try destruct (students st !! e_student_id e); simpl; intros H;
      try (now contradiction H);
      exists rest, e; eexists; rewrite Ha; (split; [reflexivity|]);
      repeat split; reflexivity.
  - unfold redo. destruct (py_pop (redo_stack st)) as [[rest e]|];
      [|intros H; now contradiction H].
    simpl. destruct (e_action_type e) eqn:Ha; simpl;
      try destruct (students st !! e_student_id e); simpl; intros H;
      try (now contradiction H);
      exists rest, e; eexists; rewrite Ha; (split; [reflexivity|]);
      repeat split; reflexivity.
Qed.

Lemma undo_redo_change_is_logged_witness :
  students (undo 102 st_edited).2 <> students st_edited /\
  length (action_logs (undo 102 st_edited).2)
  = S (length (action_logs st_edited)).
Proof.
  assert (students (undo 102 st_edited).2 <> students st_edited) as Hne.
  { intros H. apply (f_equal (fun m => m !! 1)) in H. discriminate H. }
  split; [exact Hne|].
  destruct (proj1 (undo_redo_change_is_logged 102 st_edited) Hne)
    as (rest & e & row & _ & Hlog & _).
  rewrite Hlog, length_app. simpl. lia.
Defined.

(** ** The queue mirrors the tail of the stored log *)

Lemma queue_mirrors_log_audit st st' :
  audit st' = audit st -> queue_mirrors_log st -> queue_mirrors_log st'.
Proof.
  unfold queue_mirrors_log, audit. intros [= Hl Hq]. now rewrite Hl, Hq.
Qed.

Lemma log_action_mirrors a n sid d now st :
  queue_mirrors_log st -> queue_mirrors_log (log_action a n sid d now st).
Proof.
  unfold queue_mirrors_log. simpl. intros Hq.
  set (N := action_log_maxlen) in *. set (L := action_logs st) in *.
  set (row := mkActionLog _ _ _ _ _ _).
  change (mkQueueEntry _ a n sid now) with (to_queue_entry row).
  assert (length (action_log_queue st) <= N)%nat as Hlen
    by (rewrite Hq, length_drop, length_fmap; lia).
  pose proof (foldl_deque_append N [to_queue_entry row]
                (action_log_queue st) Hlen) as Hfold.
  simpl in Hfold. rewrite Hfold, Hq, fmap_app, length_app.
  rewrite length_drop, length_fmap. simpl.
  rewrite <- (drop_app_le (to_queue_entry <$> L) [to_queue_entry row])
    by (rewrite length_fmap; lia).
  rewrite drop_drop. f_equal. lia.
Qed.

Lemma logs_at_most_one_mirrors a st st' :
  logs_at_most_one a st st' -> queue_mirrors_log st -> queue_mirrors_log st'.
Proof.
  intros [H|(n & sid & d & now & H)] Hq.
  - exact (queue_mirrors_log_audit _ _ H Hq).
  - apply (queue_mirrors_log_audit _ _ H). now apply log_action_mirrors.
Qed.

(** X9.  The in-memory queue always holds the lightweight copies of the last
    100 rows of the stored log (all of them while there are fewer): this holds
    when the process starts on an empty log and every route keeps it. *)
Theorem queue_mirrors_log_invariant (now : Z) (st : state) :
  queue_mirrors_log initial_state /\
  (queue_mirrors_log st ->
   (forall req, queue_mirrors_log (mutate st req)) /\
   queue_mirrors_log (undo now st).2 /\
   queue_mirrors_log (redo now st).2 /\
   (forall id, queue_mirrors_log (clock_in id now st).2) /\
   (forall sid, queue_mirrors_log (student_clock_in sid now st).2)).
Proof.
  split; [reflexivity|]. intros Hq. split; [|split; [|split; [|split]]].
  - intros req. destruct (mutate_logs_at_most_one req st) as [a H].
    exact (logs_at_most_one_mirrors _ _ _ H Hq).
  - exact (logs_at_most_one_mirrors _ _ _ (undo_logs_at_most_one now st) Hq).
  - exact (logs_at_most_one_mirrors _ _ _ (redo_logs_at_most_one now st) Hq).
  - intros id. exact (queue_mirrors_log_audit _ _ (clock_in_audit id now st) Hq).
  - intros sid.
    exact (queue_mirrors_log_audit _ _ (student_clock_in_audit sid now st) Hq).
Qed.

Lemma queue_mirrors_log_invariant_witness :
  queue_mirrors_log st_edited /\
  queue_mirrors_log (undo 102 st_edited).2.
Proof.
  assert (queue_mirrors_log st_edited) as H by reflexivity.
  split; [exact H|].
  exact (proj1 (proj2 (proj2 (queue_mirrors_log_invariant 102 st_edited) H))).
Defined.

(** * Merge sort *)

Section MergeSortFacts.
Context {A K : Type}.
Variable lt_key : K -> K -> bool.
Variable key : A -> K.
Variable reverse : bool.

Local Abbreviation merge := (merge lt_key key reverse).
Local Abbreviation merge_sort := (merge_sort lt_key key reverse).
Local Abbreviation takes_left := (takes_left lt_key key reverse).
Local Abbreviation in_order := (in_order lt_key key reverse).

Lemma merge_nil_l r : merge [] r = r.
Proof. now destruct r. Qed.

Lemma merge_nil_r l : merge l [] = l.
Proof. now destruct l. Qed.

Lemma merge_cons x l y r :
  merge (x :: l) (y :: r)
  = if takes_left x y then x :: merge l (y :: r) else y :: merge (x :: l) r.
Proof. reflexivity. Qed.

Lemma merge_permutation l : forall r, merge l r ≡ₚ l ++ r.
Proof.
  induction l as [|x l IHl]; intros r; [now rewrite merge_nil_l|].
  induction r as [|y r IHr]; [now rewrite merge_nil_r, app_nil_r|].
  rewrite merge_cons. destruct (takes_left x y).
  - simpl. now rewrite IHl.
  - rewrite IHr. apply (Permutation_middle (x :: l) r y).
Qed.

Lemma merge_sort_perm (data : list A) : merge_sort data ≡ₚ data.
Proof.
  apply (merge_sort_elim lt_key key reverse (fun data res => res ≡ₚ data)).
  - intros d _ _. reflexivity.
  - intros d _ IH1 IH2 _. rewrite merge_permutation, IH1, IH2.
    now rewrite take_drop.
Qed.

(** X10.  [merge_sort] returns a rearrangement of its input: nothing is lost,
    added or duplicated, for any key function and either direction; in
    particular the length is kept. *)
Theorem merge_sort_permutation (data : list A) :
  merge_sort data ≡ₚ data /\ length (merge_sort data) = length data.
Proof.
  split; [apply merge_sort_perm|].
  apply Permutation_length, merge_sort_perm.
Qed.

Section Ordered.
Hypothesis lt_key_asym : forall a b, lt_key a b = true -> lt_key b a = false.

Lemma takes_left_asym x y : takes_left x y = true -> takes_left y x = false.
Proof. destruct reverse; simpl; apply lt_key_asym. Qed.

Lemma merge_HdRel a l : forall r,
  HdRel in_order a l -> HdRel in_order a r -> HdRel in_order a (merge l r).
Proof.
  destruct l as [|x l]; intros r Hl Hr; [now rewrite merge_nil_l|].
  destruct r as [|y r]; [now rewrite merge_nil_r|].
  rewrite merge_cons. inversion Hl; inversion Hr; subst.
  destruct (takes_left x y); now constructor.
Qed.

Lemma merge_sorted l : forall r,
  Sorted in_order l -> Sorted in_order r -> Sorted in_order (merge l r).
Proof.
  induction l as [|x l IHl]; intros r Hl Hr; [now rewrite merge_nil_l|].
  induction r as [|y r IHr]; [now rewrite merge_nil_r|].
  rewrite merge_cons. inversion Hl; inversion Hr; subst.
  destruct (takes_left x y) eqn:E.
  - constructor; [now apply IHl|].
    apply merge_HdRel; [assumption|].
    constructor. now apply takes_left_asym.
  - constructor; [now apply IHr|].
    apply merge_HdRel; [|assumption]. now constructor.
Qed.

Lemma merge_sort_in_order (data : list A) : Sorted in_order (merge_sort data).
Proof.
  apply (merge_sort_elim lt_key key reverse
           (fun data res => Sorted in_order res)).
  - intros d Hd _. destruct d as [|a [|b d]]; simpl in Hd; try lia;
      repeat constructor.
  - intros d _ IH1 IH2 _. now apply merge_sorted.
Qed.
End Ordered.

(** X11.  When [<] on the keys is asymmetric (as it is on integers and on
    strings), the output of [merge_sort] is in order: no element goes strictly
    before its predecessor (smaller key when ascending, greater key when
    [reverse]). *)
Theorem merge_sort_sorted (data : list A) :
  (forall a b, lt_key a b = true -> lt_key b a = false) ->
  Sorted in_order (merge_sort data).
Proof. intros H. now apply merge_sort_in_order. Qed.

Lemma merge_all_tied l : forall r,
  (forall x y, x ∈ l -> y ∈ r -> takes_left x y = false) ->
  merge l r = r ++ l.
Proof.
  destruct l as [|x l]; intros r H; [now rewrite merge_nil_l, app_nil_r|].
  induction r as [|y r IHr]; [now rewrite merge_nil_r|].
  rewrite merge_cons, (H x y) by constructor.
  rewrite IHr; [reflexivity|]. intros a b Ha Hb. apply H; [exact Ha|].
  now constructor.
Qed.

(** X12.  When no two elements of the input compare strictly (all keys tie),
    [merge_sort] returns the input reversed: ties come out in the opposite of
    their input order. *)
Theorem merge_sort_reverses_ties (data : list A) :
  all_tied lt_key key reverse data -> merge_sort data = rev data.
Proof.
  apply (merge_sort_elim lt_key key reverse
           (fun data res => all_tied lt_key key reverse data -> res = rev data)).
  - intros d Hd _ _. destruct d as [|a [|b d]]; simpl in Hd; try lia;
      reflexivity.
  - intros d _ IH1 IH2 _ Htied.
    assert (forall n x, x ∈ take n d -> x ∈ d) as Htake
      by (intros n x Hx; rewrite <- (take_drop n d); set_solver).
    assert (forall n x, x ∈ drop n d -> x ∈ d) as Hdrop
      by (intros n x Hx; rewrite <- (take_drop n d); set_solver).
    rewrite IH1, IH2 by (intros x y Hx Hy; apply Htied; eauto).
    rewrite merge_all_tied.
    + rewrite <- rev_app_distr. now rewrite take_drop.
    + intros x y Hx Hy.
      rewrite list_elem_of_In, <- in_rev, <- list_elem_of_In in Hx, Hy.
      apply Htied; eauto.
Qed.
End MergeSortFacts.

Lemma merge_sort_sorted_witness :
  (forall a b, Z.ltb a b = true -> Z.ltb b a = false) /\
  Sorted (in_order Z.ltb (fun x : Z => x) false)
         (merge_sort Z.ltb (fun x : Z => x) false [3; 1; 2; 1]).
Proof.
  assert (forall a b, Z.ltb a b = true -> Z.ltb b a = false) as H by lia.
  split; [exact H|]. apply merge_sort_sorted. exact H.
Defined.

Lemma merge_sort_reverses_ties_witness :
  all_tied Z.ltb (fun x : student_obj => total_hours x.2) false
           [twin_1; twin_2] /\
  merge_sort Z.ltb (fun x : student_obj => total_hours x.2) false
             [twin_1; twin_2] = [twin_2; twin_1].
Proof.
  assert (all_tied Z.ltb (fun x : student_obj => total_hours x.2) false
                   [twin_1; twin_2]) as H.
  { intros x y Hx Hy. unfold takes_left.
    rewrite !elem_of_cons, elem_of_nil in Hx, Hy.
    destruct Hx as [->|[->|[]]], Hy as [->|[->|[]]]; reflexivity. }
  split; [exact H|].
  exact (merge_sort_reverses_ties Z.ltb _ false [twin_1; twin_2] H).
Defined.

(** * Binary prefix search *)

(** ** The order on strings *)

Lemma str_ltb_irrefl a : str_ltb a a = false.
Proof.
  induction a as [|x a IH]; simpl; [reflexivity|].
  now rewrite N.ltb_irrefl.
Qed.

Lemma str_ltb_trans a : forall b c,
  str_ltb a b = true -> str_ltb b c = true -> str_ltb a c = true.
Proof.
  induction a as [|x a IH]; intros [|y b] [|z c]; simpl; try congruence.
  destruct (N.ltb_spec x y), (N.ltb_spec y x), (N.ltb_spec y z),
    (N.ltb_spec z y), (N.ltb_spec x z), (N.ltb_spec z x);
    try congruence; try lia.
  apply IH.
Qed.

Lemma str_ltb_total a : forall b,
  str_ltb a b = false -> str_ltb b a = false -> a = b.
Proof.
  induction a as [|x a IH]; intros [|y b]; simpl; try congruence.
  destruct (N.ltb_spec x y), (N.ltb_spec y x); try congruence; try lia.
  intros H1 H2. f_equal; [lia|now apply IH].
Qed.

Lemma str_ltb_asym a b : str_ltb a b = true -> str_ltb b a = false.
Proof.
  intros H. destruct (str_ltb b a) eqn:E; [|reflexivity].
  pose proof (str_ltb_trans _ _ _ H E) as Hc.
  now rewrite str_ltb_irrefl in Hc.
Qed.

Lemma str_le_trans a b c : str_le a b -> str_le b c -> str_le a c.
Proof.
  unfold str_le. intros Hab Hbc.
  destruct (str_ltb c a) eqn:Hca; [|reflexivity]. exfalso.
  destruct (str_ltb a b) eqn:Hlt.
  - pose proof (str_ltb_trans _ _ _ Hca Hlt). congruence.
  - pose proof (str_ltb_total _ _ Hlt Hab). subst b. congruence.
Qed.

#[local] Instance str_le_transitive : Transitive str_le.
Proof. intros a b c. apply str_le_trans. Qed.

(** A string is never below one of its prefixes. *)
Lemma startswith_ge s : forall prefix,
  startswith s prefix = true -> str_ltb s prefix = false.
Proof.
  induction s as [|c s IH]; intros [|p prefix]; simpl; try congruence.
  intros H. apply andb_true_iff in H as [Hc H].
  apply N.eqb_eq in Hc. subst p. rewrite N.ltb_irrefl. now apply IH.
Qed.

(** A string that starts with [prefix] and has no code point from U+FFFF
    upwards is not above the high key. *)
Lemma startswith_le_high_key s : forall prefix,
  startswith s prefix = true -> below_high_char s ->
  str_ltb (prefix ++ [high_char]) s = false.
Proof.
  induction s as [|c s IH]; intros [|p prefix]; simpl; try congruence.
  - intros _ Hs. apply Forall_cons in Hs as [Hc _].
    destruct (N.ltb_spec high_char c); [lia|].
    destruct (N.ltb_spec c high_char); [reflexivity|lia].
  - intros H Hs. apply andb_true_iff in H as [Hc H].
    apply N.eqb_eq in Hc. subst p. rewrite N.ltb_irrefl.
    apply Forall_cons in Hs as [_ Hs]. now apply IH.
Qed.

(** ** The two binary searches *)

(** Both loops find the boundary of a test that, once true at an index, is
    true at every later index. *)
Lemma search_left_spec names prefix lo hi acc :
  let n := Z.of_nat (length names) in
  let p i := str_geb (name_at names i) prefix in
  (forall i j, 0 <= i <= j -> j < n -> p i = true -> p j = true) ->
  0 <= lo -> hi < n -> lo <= hi + 1 -> acc = hi + 1 ->
  (forall i, 0 <= i < lo -> p i = false) ->
  (forall i, hi < i < n -> p i = true) ->
  let L := search_left names prefix lo hi acc in
  0 <= L <= n /\
  (forall i, 0 <= i < L -> p i = false) /\
  (forall i, L <= i < n -> p i = true).
Proof.
  apply (search_left_elim
    (fun names prefix lo hi acc res =>
       let n := Z.of_nat (length names) in
       let p i := str_geb (name_at names i) prefix in
       (forall i j, 0 <= i <= j -> j < n -> p i = true -> p j = true) ->
       0 <= lo -> hi < n -> lo <= hi + 1 -> acc = hi + 1 ->
       (forall i, 0 <= i < lo -> p i = false) ->
       (forall i, hi < i < n -> p i = true) ->
       0 <= res <= n /\
       (forall i, 0 <= i < res -> p i = false) /\
       (forall i, res <= i < n -> p i = true))).
  - clear. intros names prefix lo hi Hle acc IH1 IH2 _ n p Hmono Hlo Hhi _ Hacc
      Hbelow Habove.
    assert (lo <= (lo + hi) / 2 <= hi) as Hmid
      by (split; [apply Z.div_le_lower_bound | apply Z.div_le_upper_bound]; lia).
    fold (p ((lo + hi) / 2)). destruct (p ((lo + hi) / 2)) eqn:Hp.
    + apply IH1; try assumption; try lia.
      intros i Hi. apply (Hmono ((lo + hi) / 2)); [lia|lia|exact Hp].
    + apply IH2; try assumption; try lia.
      intros i Hi. destruct (p i) eqn:Hpi; [|exact Hpi].
      rewrite (Hmono i ((lo + hi) / 2)) in Hp; [discriminate|lia|lia|exact Hpi].
  - clear. intros names prefix lo hi Hgt acc _ n p _ Hlo Hhi Hle Hacc
      Hbelow Habove.
    split; [lia|]. split; intros i Hi; [apply Hbelow|apply Habove]; lia.
Qed.

Lemma search_right_spec names hi_key lo hi acc :
  let n := Z.of_nat (length names) in
  let p i := str_gtb (name_at names i) hi_key in
  (forall i j, 0 <= i <= j -> j < n -> p i = true -> p j = true) ->
  0 <= lo -> hi < n -> lo <= hi + 1 -> acc = hi + 1 ->
  (forall i, 0 <= i < lo -> p i = false) ->
  (forall i, hi < i < n -> p i = true) ->
  let R := search_right names hi_key lo hi acc in
  0 <= R <= n /\
  (forall i, 0 <= i < R -> p i = false) /\
  (forall i, R <= i < n -> p i = true).
Proof.
  apply (search_right_elim
    (fun names hi_key lo hi acc res =>
       let n := Z.of_nat (length names) in
       let p i := str_gtb (name_at names i) hi_key in
       (forall i j, 0 <= i <= j -> j < n -> p i = true -> p j = true) ->
       0 <= lo -> hi < n -> lo <= hi + 1 -> acc = hi + 1 ->
       (forall i, 0 <= i < lo -> p i = false) ->
       (forall i, hi < i < n -> p i = true) ->
       0 <= res <= n /\
       (forall i, 0 <= i < res -> p i = false) /\
       (forall i, res <= i < n -> p i = true))).
  - clear. intros names hi_key lo hi Hle acc IH1 IH2 _ n p Hmono Hlo Hhi _ Hacc
      Hbelow Habove.
    assert (lo <= (lo + hi) / 2 <= hi) as Hmid
      by (split; [apply Z.div_le_lower_bound | apply Z.div_le_upper_bound]; lia).
    fold (p ((lo + hi) / 2)). destruct (p ((lo + hi) / 2)) eqn:Hp.
    + apply IH1; try assumption; try lia.
      intros i Hi. apply (Hmono ((lo + hi) / 2)); [lia|lia|exact Hp].
    + apply IH2; try assumption; try lia.
      intros i Hi. destruct (p i) eqn:Hpi; [|exact Hpi].
      rewrite (Hmono i ((lo + hi) / 2)) in Hp; [discriminate|lia|lia|exact Hpi].
  - clear. intros names hi_key lo hi Hgt acc _ n p _ Hlo Hhi Hle Hacc
      Hbelow Habove.
    split; [lia|]. split; intros i Hi; [apply Hbelow|apply Habove]; lia.
Qed.

(** ** The search itself *)

Lemma StronglySorted_lookup {A} (R : A -> A -> Prop) (l : list A) :
  StronglySorted R l ->
  forall i j x y, (i < j)%nat -> l !! i = Some x -> l !! j = Some y -> R x y.
Proof.
  induction 1 as [|a l Hl IH Hall]; intros i j x y Hij Hi Hj;
    [now rewrite lookup_nil in Hi|].
  destruct j as [|j]; [lia|]. simpl in Hj.
  destruct i as [|i]; simpl in Hi.
  - injection Hi as <-. rewrite Forall_forall in Hall. apply Hall.
    eapply list_elem_of_lookup_2. exact Hj.
  - apply (IH i j); [lia|assumption|assumption].
Qed.

Lemma filter_none {A} (f : A -> bool) (l : list A) :
  (forall i x, l !! i = Some x -> f x = false) -> List.filter f l = [].
Proof.
  induction l as [|a l IH]; intros H; simpl; [reflexivity|].
  rewrite (H 0%nat a eq_refl). apply IH. intros i x Hi. exact (H (S i) x Hi).
Qed.

(** Filtering a slice that leaves out only rejected items is filtering the
    whole list. *)
Lemma filter_slice {A} (f : A -> bool) (l : list A) (a b : nat) :
  (forall i x, l !! i = Some x -> (i < a)%nat -> f x = false) ->
  (forall i x, l !! i = Some x -> (b <= i)%nat -> f x = false) ->
  List.filter f (drop a (take b l)) = List.filter f l.
Proof.
  intros Ha Hb.
  rewrite <- (take_drop b l) at 2. rewrite List.filter_app.
  rewrite (filter_none f (drop b l)), app_nil_r.
  - rewrite <- (take_drop a (take b l)) at 2. rewrite List.filter_app.
    rewrite (filter_none f (take a (take b l))); [reflexivity|].
    intros i x Hi. apply lookup_take_Some in Hi as [Hi Hlt].
    apply lookup_take_Some in Hi as [Hi _]. now apply (Ha i).
  - intros i x Hi. rewrite lookup_drop in Hi. apply (Hb _ _ Hi). lia.
Qed.

Lemma filter_sublist {A} (f : A -> bool) (l : list A) :
  List.filter f l `sublist_of` l.
Proof.
  induction l as [|a l IH]; simpl; [constructor|].
  destruct (f a); now constructor.
Qed.

Lemma filter_all {A} (f : A -> bool) (l : list A) :
  (forall x, f x = true) -> List.filter f l = l.
Proof.
  intros H. induction l as [|a l IH]; simpl; [reflexivity|].
  now rewrite H, IH.
Qed.

Section SearchFacts.
Variable lower : pystr -> pystr.

Local Abbreviation key := (fun s : student_obj => lower (name s.2)).

Lemma name_at_lookup (students : list student_obj) (i : nat) s :
  students !! i = Some s ->
  name_at (List.map key students) (Z.of_nat i) = key s.
Proof.
  intros H. unfold name_at. rewrite Nat2Z.id. apply nth_lookup_Some.
  change (List.map key students) with (key <$> students).
  now rewrite list_lookup_fmap, H.
Qed.

Lemma sorted_names_le (students : list student_obj) i j x y :
  Sorted str_le (List.map key students) ->
  (i <= j)%nat -> students !! i = Some x -> students !! j = Some y ->
  str_le (key x) (key y).
Proof.
  intros Hs Hij Hi Hj. destruct (decide (i = j)) as [->|Hne].
  - rewrite Hi in Hj. injection Hj as <-. apply str_ltb_irrefl.
  - apply Sorted_StronglySorted in Hs; [|apply str_le_transitive].
    apply (StronglySorted_lookup _ _ Hs i j); [lia| |];
      change (List.map key students) with (key <$> students);
      rewrite list_lookup_fmap; [now rewrite Hi|now rewrite Hj].
Qed.

(** On a list sorted by lowercased name whose lowercased names stay below
    U+FFFF, the slice between the two boundaries loses no match. *)
Lemma prefix_search_exact (students : list student_obj) (prefix : pystr) :
  Sorted str_le (List.map key students) ->
  Forall (fun s => below_high_char (key s)) students ->
  binary_prefix_search_students lower students prefix
  = List.filter (fun s => startswith (key s) (lower prefix)) students.
Proof.
  intros Hsorted Hbelow. unfold binary_prefix_search_students.
  destruct (lower prefix) as [|p0 ps] eqn:Hprefix.
  { rewrite filter_all; [reflexivity|]. intros s. now destruct (key s). }
  set (pre := p0 :: ps). set (names := List.map key students).
  set (n := Z.of_nat (length names)).
  assert (length names = length students) as Hlen
    by (unfold names; apply length_map).
  assert (forall i : Z, 0 <= i < n ->
            exists s, students !! Z.to_nat i = Some s /\
                      name_at names i = key s) as Hget.
  { intros i Hi. destruct (lookup_lt_is_Some_2 students (Z.to_nat i)) as [s Hs];
      [lia|]. exists s. split; [exact Hs|].
    rewrite <- (Z2Nat.id i) at 1 by lia. now apply name_at_lookup. }
  assert (forall i j, 0 <= i <= j -> j < n ->
            str_le (name_at names i) (name_at names j)) as Hmono.
  { intros i j Hij Hj. destruct (Hget i) as (x & Hx & ->); [lia|].
    destruct (Hget j) as (y & Hy & ->); [lia|].
    apply (sorted_names_le students (Z.to_nat i) (Z.to_nat j)); auto. lia. }
  destruct (search_left_spec names pre 0 (n - 1) n) as (HL & HLlt & _);
    try lia.
  { intros i j Hij Hj Hi. unfold str_geb in *. apply negb_true_iff in Hi.
    apply negb_true_iff. exact (str_le_trans _ _ _ Hi (Hmono i j Hij Hj)). }
  destruct (search_right_spec names (pre ++ [high_char]) 0 (n - 1) n)
    as (HR & _ & HRge); try lia.
  { intros i j Hij Hj Hi. unfold str_gtb in *.
    destruct (str_ltb (pre ++ [high_char]) (name_at names j)) eqn:E;
      [reflexivity|].
    pose proof (str_le_trans _ _ _ (Hmono i j Hij Hj) E) as Hc.
    unfold str_le in Hc. congruence. }
  fold n in HL, HLlt, HR, HRge.
  set (L := search_left names pre 0 (n - 1) n) in *.
  set (R := search_right names (pre ++ [high_char]) 0 (n - 1) n) in *.
  apply filter_slice.
  - intros i s Hs Hi.
    assert (0 <= Z.of_nat i < n) as Hin
      by (apply lookup_lt_Some in Hs; lia).
    specialize (HLlt (Z.of_nat i) ltac:(lia)).
    pose proof (name_at_lookup students i s Hs) as Hn. fold names in Hn.
    rewrite Hn in HLlt.
    unfold str_geb in HLlt. apply negb_false_iff in HLlt.
    destruct (startswith (key s) pre) eqn:E; [|reflexivity].
    apply startswith_ge in E. congruence.
  - intros i s Hs Hi.
    assert (0 <= Z.of_nat i < n) as Hin
      by (apply lookup_lt_Some in Hs; lia).
    specialize (HRge (Z.of_nat i) ltac:(lia)).
    pose proof (name_at_lookup students i s Hs) as Hn. fold names in Hn.
    rewrite Hn in HRge. unfold str_gtb in HRge.
    destruct (startswith (key s) pre) eqn:E; [|reflexivity].
    apply startswith_le_high_key in E; [congruence|].
    rewrite Forall_forall in Hbelow. apply Hbelow.
    eapply list_elem_of_lookup_2. exact Hs.
Qed.
End SearchFacts.

(** X13.  Whatever the input list (sorted or not) and the prefix, the search
    returns a sub-sequence of the input, in input order, and every student it
    returns has a lowercased name that starts with the lowercased prefix. *)
Theorem prefix_search_sound (lower : pystr -> pystr)
    (students : list student_obj) (prefix : pystr) :
  binary_prefix_search_students lower students prefix `sublist_of` students /\
  Forall (fun s => startswith (lower (name s.2)) (lower prefix) = true)
         (binary_prefix_search_students lower students prefix).
Proof.
  unfold binary_prefix_search_students.
  destruct (lower prefix) as [|p0 ps] eqn:Hprefix.
  - split; [reflexivity|]. apply Forall_forall. intros s _.
    now destruct (lower (name s.2)).
  - split.
    + etransitivity; [apply filter_sublist|].
      etransitivity; [apply sublist_drop|apply sublist_take].
    + apply Forall_forall. intros s Hs. apply list_elem_of_In in Hs.
      apply filter_In in Hs as [_ Hs]. exact Hs.
Qed.

(** X14.  Under the precondition of the docstring (the list is sorted by
    lowercased name) and when no lowercased name contains a code point from
    U+FFFF upwards, the search returns exactly the students whose lowercased
    name starts with the lowercased prefix, in list order. *)
Theorem prefix_search_complete (lower : pystr -> pystr)
    (students : list student_obj) (prefix : pystr) :
  Sorted str_le (List.map (fun s : student_obj => lower (name s.2)) students) ->
  Forall (fun s : student_obj => below_high_char (lower (name s.2))) students ->
  binary_prefix_search_students lower students prefix
  = List.filter (fun s => startswith (lower (name s.2)) (lower prefix))
                students.
Proof. apply prefix_search_exact. Qed.

Lemma prefix_search_complete_witness :
  Sorted str_le
    (List.map (fun s : student_obj => ascii_lower (name s.2))
       [named 3 (py "Bob"); named 2 (py "Joanna"); named 1 (py "Jon")]) /\
  binary_prefix_search_students ascii_lower
    [named 3 (py "Bob"); named 2 (py "Joanna"); named 1 (py "Jon")] (py "JO")
  = [named 2 (py "Joanna"); named 1 (py "Jon")].
Proof.
  assert (Sorted str_le
    (List.map (fun s : student_obj => ascii_lower (name s.2))
       [named 3 (py "Bob"); named 2 (py "Joanna"); named 1 (py "Jon")])) as Hs
    by (repeat constructor).
  split; [exact Hs|].
  rewrite (prefix_search_complete ascii_lower _ (py "JO") Hs);
    [reflexivity|].
  repeat constructor; vm_compute; reflexivity.
Defined.

Lemma Sorted_map_in_order (lower : pystr -> pystr) (l : list student_obj) :
  Sorted (in_order str_ltb (fun s : student_obj => lower (name s.2)) false) l ->
  Sorted str_le (List.map (fun s : student_obj => lower (name s.2)) l).
Proof.
  induction 1 as [|a l Hl IH Hhd]; simpl; constructor; [exact IH|].
  destruct Hhd; simpl; constructor. assumption.
Qed.

(** X15.  The binary branch of the [search] route (sort by lowercased name
    with [merge_sort], then search): when no lowercased name contains a code
    point from U+FFFF upwards, it returns exactly the matching students of the
    sorted list, whatever the order the store returned them in. *)
Theorem search_binary_exact (lower : pystr -> pystr)
    (students : list student_obj) (q : pystr) :
  Forall (fun s : student_obj => below_high_char (lower (name s.2))) students ->
  search_binary lower students q
  = List.filter (fun s => startswith (lower (name s.2)) (lower q))
      (merge_sort str_ltb (fun s : student_obj => lower (name s.2)) false
                  students).
Proof.
  intros Hbelow. unfold search_binary. apply prefix_search_exact.
  - apply Sorted_map_in_order, merge_sort_in_order. apply str_ltb_asym.
  - eapply Permutation_Forall; [|exact Hbelow].
    symmetry. apply merge_sort_perm.
Qed.

Lemma search_binary_exact_witness :
  Forall (fun s : student_obj => below_high_char (ascii_lower (name s.2)))
         example_students /\
  search_binary ascii_lower example_students (py "jo")
  = [named 2 (py "Joanna"); named 1 (py "Jon")].
Proof.
  assert (Forall (fun s : student_obj =>
                    below_high_char (ascii_lower (name s.2)))
                 example_students) as H
    by (repeat constructor; vm_compute; reflexivity).
  split; [exact H|].
  rewrite (search_binary_exact ascii_lower example_students (py "jo") H).
  reflexivity.
Defined.

(** * Clock-in and clock-out together *)



Lemma latest_open_no_open id l : forall i best,
  List.filter (is_open_for id) l = [] -> latest_open id l i best = best.
Proof.
  induction l as [|te l IH]; intros i best H; simpl in *; [reflexivity|].
  destruct (is_open_for id te); [discriminate|]. now apply IH.
Qed.




Lemma open_entry_of_app_new id now k l :
  open_entry_of id (l ++ [mkTimeEntry k id now None]) <> None.
Proof.
  unfold open_entry_of. induction l as [|te l IH]; simpl.
  - unfold is_open_for. simpl. now rewrite Z.eqb_refl.
  - now destruct (is_open_for id te).
Qed.

Lemma clock_in_then_open id now st s :
  students st !! id = Some s ->
  open_entry_of id (time_entries (clock_in id now st).2) <> None.
Proof.
  intros Hs. unfold clock_in. rewrite Hs.
  destruct (open_entry_of id (time_entries st)) eqn:Ho; simpl.
  - now rewrite Ho.
  - apply open_entry_of_app_new.
Qed.

(** X17.  A second clock-in right after an administrative clock-in of a
    student in the store is refused on both routes: the administrative
    route answers "Student already clocked in" and the self-service route
    redirects without adding an entry; the state is the one the first
    call left. *)
Theorem clock_in_twice_refused (id t1 t2 : Z) (st : state) (s : Student) :
  students st !! id = Some s ->
  let st1 := (clock_in id t1 st).2 in
  clock_in id t2 st1 = (mkReply TextAlreadyClockedIn [], st1) /\
  (student_clock_in (Some id) t2 st1).2 = st1.
Proof.
  intros Hs st1.
  pose proof (clock_in_then_open id t1 st s Hs) as Hopen. fold st1 in Hopen.
  assert (students st1 = students st) as Hst.
  { unfold st1, clock_in. rewrite Hs.
    now destruct (open_entry_of id (time_entries st)). }
  split.
  - unfold clock_in at 1. rewrite Hst, Hs.
    now destruct (open_entry_of id (time_entries st1)).
  - unfold student_clock_in. destruct (not_sid (Some id)); [reflexivity|].
    rewrite Hst, Hs. destruct (hours_reached s); [reflexivity|].
    now destruct (open_entry_of id (time_entries st1)).
Qed.

Lemma clock_in_twice_refused_witness :
  students st_clock !! 1 = Some (mkStudent (py "A") None 10 10 None) /\
  clock_in 1 1200 (clock_in 1 1100 st_clock).2
  = (mkReply TextAlreadyClockedIn [], (clock_in 1 1100 st_clock).2) /\
  length (time_entries (clock_in 1 1100 st_clock).2) = 3%nat.
Proof.
  split; [reflexivity|]. split; [|reflexivity].
  exact (proj1 (clock_in_twice_refused 1 1100 1200 st_clock
                  (mkStudent (py "A") None 10 10 None) eq_refl)).
Defined.

Lemma latest_open_app_new id now k l : forall i,
  List.filter (is_open_for id) l = [] ->
  latest_open id (l ++ [mkTimeEntry k id now None]) i None
  = Some ((i + length l)%nat, mkTimeEntry k id now None).
Proof.
  induction l as [|te l IH]; intros i H; simpl in *.
  - unfold is_open_for. simpl. rewrite Z.eqb_refl. simpl.
    now rewrite Nat.add_0_r.
  - destruct (is_open_for id te); [discriminate|].
    rewrite IH by exact H. f_equal. f_equal. lia.
Qed.

(** X18.  For a student in the store with no open entry, a clock-in at [t1]
    followed by a clock-out at [t2] (both administrative) answers
    "Clocked in" then "Clocked out" and leaves the table as it was plus one
    closed entry with a fresh id, the student's id, [clock_in = t1] and
    [clock_out = t2]; the student has no open entry afterwards, so the next
    clock-in is accepted. *)
Theorem clock_in_then_out (id t1 t2 t3 : Z) (st : state) (s : Student) :
  students st !! id = Some s ->
  open_entries id st = [] ->
  let st1 := (clock_in id t1 st).2 in
  let st2 := (clock_out id t2 st1).2 in
  (clock_in id t1 st).1 = mkReply (TextClockedIn t1) [] /\
  (clock_out id t2 st1).1 = ClockedOut t2 /\
  time_entries st2
  = time_entries st
    ++ [mkTimeEntry (next_id (te_id <$> time_entries st)) id t1 (Some t2)] /\
  (next_id (te_id <$> time_entries st) ∉ te_id <$> time_entries st) /\
  open_entries id st2 = [] /\
  (clock_in id t3 st2).1 = mkReply (TextClockedIn t3) [].
Proof.
  intros Hs Hnone st1 st2. unfold open_entries in Hnone.
  assert (open_entry_of id (time_entries st) = None) as Hfind.
  { unfold open_entry_of. destruct (List.find _ _) eqn:Hf; [|reflexivity].
    apply List.find_some in Hf as [Hin Ho].
    assert (List.In t (List.filter (is_open_for id) (time_entries st)))
      as Hin' by (apply List.filter_In; now split).
    rewrite Hnone in Hin'. destruct Hin'. }
  assert (clock_in id t1 st
          = (mkReply (TextClockedIn t1) [],
             set_time_entries
               (time_entries st
                ++ [mkTimeEntry (next_id (te_id <$> time_entries st))
                                id t1 None]) st)) as H1.
  { unfold clock_in. now rewrite Hs, Hfind. }
  assert (clock_out id t2 st1
          = (ClockedOut t2,
             set_time_entries
               (time_entries st
                ++ [mkTimeEntry (next_id (te_id <$> time_entries st))
                                id t1 (Some t2)]) st1)) as H2.
  { unfold st1. rewrite H1. unfold clock_out. simpl. rewrite Hs.
    rewrite latest_open_app_new by exact Hnone. simpl.
    f_equal. f_equal.
    rewrite insert_app_r_alt by lia. now rewrite Nat.sub_diag. }
  assert (open_entries id st2 = []) as Hnone2.
  { unfold st2. rewrite H2. unfold open_entries. simpl.
    rewrite List.filter_app, Hnone. simpl. unfold is_open_for. simpl.
    now rewrite andb_false_r. }
  split; [now rewrite H1|]. split; [now rewrite H2|].
  split; [unfold st2; now rewrite H2|].
  split.
  { intros Hin. apply Z_max_list_ge in Hin. unfold next_id in Hin. lia. }
  split; [exact Hnone2|].
  assert (students st2 = students st) as Hst
    by (unfold st2; rewrite H2; simpl; unfold st1; now rewrite H1).
  unfold clock_in. rewrite Hst, Hs.
  destruct (open_entry_of id (time_entries st2)) eqn:Hf; [|reflexivity].
  apply List.find_some in Hf as [Hin Ho]. unfold open_entries in Hnone2.
  assert (List.In t (List.filter (is_open_for id) (time_entries st2)))
    as Hin' by (apply List.filter_In; now split).
  rewrite Hnone2 in Hin'. destruct Hin'.
Qed.

Lemma clock_in_then_out_witness :
  students st_clock !! 1 = Some (mkStudent (py "A") None 10 10 None) /\
  open_entries 1 st_clock = [] /\
  time_entries (clock_out 1 1200 (clock_in 1 1100 st_clock).2).2
  = time_entries st_clock ++ [mkTimeEntry 3 1 1100 (Some 1200)].
Proof.
  split; [reflexivity|]. split; [reflexivity|].
  exact (proj1 (proj2 (proj2
    (clock_in_then_out 1 1100 1200 1300 st_clock
       (mkStudent (py "A") None 10 10 None) eq_refl eq_refl)))).
Defined.

(** * Linear search and the search route *)

Lemma startswith_spec (q : pystr) : forall s,
  startswith s q = true <-> exists post, s = q ++ post.
Proof.
  induction q as [|p q IH]; intros s; simpl.
  - split; [intros _; now exists s|now destruct s].
  - destruct s as [|c s].
    + split; [discriminate|]. intros [post H]. discriminate.
    + simpl. rewrite andb_true_iff, N.eqb_eq, IH. split.
      * intros [-> [post ->]]. now exists post.
      * intros [post [= -> ->]]. split; [reflexivity|now exists post].
Qed.

Lemma str_in_eq (q s : pystr) :
  str_in q s
  = startswith s q || match s with [] => false | _ :: s' => str_in q s' end.
Proof. now destruct s. Qed.

Lemma str_in_spec (q : pystr) : forall s,
  str_in q s = true <-> substring q s.
Proof.
  intros s. split.
  - induction s as [|c s IH]; rewrite str_in_eq, orb_true_iff.
    + intros [H|H]; [|discriminate].
      apply startswith_spec in H as [post H]. now exists [], post.
    + intros [H|H].
      * apply startswith_spec in H as [post H]. now exists [], post.
      * destruct (IH H) as (pre & post & ->). now exists (c :: pre), post.
  - intros (pre & post & ->). induction pre as [|c pre IH].
    + rewrite str_in_eq. apply orb_true_iff. left.
      apply startswith_spec. now exists post.
    + change ((c :: pre) ++ q ++ post) with (c :: (pre ++ q ++ post)).
      rewrite str_in_eq. apply orb_true_iff. right. exact IH.
Qed.

(** X19.  The linear search returns, in input order, exactly the students
    for whom the lowercased query occurs somewhere in the lowercased name
    or in the lowercased program (the empty string for a student without
    program). *)
Theorem linear_search_exact (lower : pystr -> pystr)
    (students : list student_obj) (q : pystr) :
  linear_search_students lower students q `sublist_of` students /\
  forall s,
    s ∈ linear_search_students lower students q <->
    s ∈ students /\
    (substring (lower q) (lower (name s.2)) \/
     substring (lower q) (lower (program_or_empty s.2))).
Proof.
  split; [apply filter_sublist|].
  intros s. unfold linear_search_students.
  rewrite list_elem_of_In, filter_In, <- list_elem_of_In.
  now rewrite orb_true_iff, !str_in_spec.
Qed.

Lemma prefix_search_elem (lower : pystr -> pystr)
    (students : list student_obj) (prefix : pystr) (s : student_obj) :
  s ∈ binary_prefix_search_students lower students prefix ->
  s ∈ students /\ startswith (lower (name s.2)) (lower prefix) = true.
Proof.
  unfold binary_prefix_search_students.
  destruct (lower prefix) as [|p0 ps] eqn:Hprefix.
  - intros H. split; [exact H|]. now destruct (lower (name s.2)).
  - intros H. apply list_elem_of_In, filter_In in H as [H Hs].
    split; [|exact Hs]. apply list_elem_of_In in H.
    eapply elem_of_sublist; [exact H|].
    etransitivity; [apply sublist_drop|apply sublist_take].
Qed.

Lemma search_binary_in_linear (lower : pystr -> pystr)
    (students : list student_obj) (q : pystr) (s : student_obj) :
  s ∈ search_binary lower students q ->
  s ∈ linear_search_students lower students q.
Proof.
  intros H. apply prefix_search_elem in H as [Hin Hs].
  rewrite merge_sort_perm in Hin.
  unfold linear_search_students.
  apply list_elem_of_In, filter_In. split; [now apply list_elem_of_In|].
  apply orb_true_iff. left. rewrite str_in_eq. now rewrite Hs.
Qed.

(** X20.  On the search route, whatever the binary mode shows the linear
    mode shows too: when a request with [alg=binary] renders a page of
    students, the same query with any other [alg] renders a page holding
    every one of them.  A rendered page is never empty. *)
Theorem search_binary_page_within_linear (lower strip : pystr -> pystr)
    (q alg alg' : pystr) (students rs : list student_obj) :
  lower alg = py "binary" ->
  lower alg' <> py "binary" ->
  search lower strip q alg students = PageStudents rs ->
  rs <> [] /\
  exists rs',
    search lower strip q alg' students = PageStudents rs' /\ rs ⊆ rs'.
Proof.
  intros Halg Halg'. unfold search, pystr_eqb.
  destruct (strip q) as [|c0 cs]; [discriminate|].
  rewrite Halg, bool_decide_eq_true_2 by reflexivity.
  rewrite bool_decide_eq_false_2 by exact Halg'.
  destruct (search_binary lower students (c0 :: cs)) as [|r0 rs0] eqn:Hb;
    [discriminate|].
  intros [= <-]. split; [discriminate|].
  assert (r0 :: rs0 ⊆ linear_search_students lower students (c0 :: cs))
    as Hsub.
  { intros s Hs. apply search_binary_in_linear. now rewrite Hb. }
  destruct (linear_search_students lower students (c0 :: cs)) as [|l0 ls].
  - exfalso. specialize (Hsub r0 ltac:(left)). inversion Hsub.
  - now exists (l0 :: ls).
Qed.

Lemma search_binary_page_within_linear_witness :
  ascii_lower (py "Binary") = py "binary" /\
  ascii_lower (py "linear") <> py "binary" /\
  search ascii_lower ascii_strip (py " b ") (py "Binary") roster
  = PageStudents [(3, mkStudent (py "Bob") (Some (py "BSCS")) 10 0 None)] /\
  search ascii_lower ascii_strip (py " b ") (py "linear") roster
  = PageStudents (List.filter (fun s => negb (s.1 =? 0)) roster) /\
  [(3, mkStudent (py "Bob") (Some (py "BSCS")) 10 0 None)]
  ⊆ List.filter (fun s => negb (s.1 =? 0)) roster.
Proof.
  assert (ascii_lower (py "linear") <> py "binary") as Hne by discriminate.
  split; [reflexivity|]. split; [exact Hne|]. split; [reflexivity|].
  split; [reflexivity|].
  destruct (search_binary_page_within_linear ascii_lower ascii_strip
              (py " b ") (py "Binary") (py "linear") roster
              [(3, mkStudent (py "Bob") (Some (py "BSCS")) 10 0 None)]
              eq_refl Hne eq_refl) as (_ & rs' & Hrs' & Hsub).
  injection Hrs' as <-. exact Hsub.
Defined.

(** * Upload file names *)

Lemma has_dot_app (a b : pystr) : has_dot (a ++ b) = has_dot a || has_dot b.
Proof. apply existsb_app. Qed.

Lemma rsplit_dot_no_dot (s : pystr) :
  has_dot s = false -> rsplit_dot s = [s].
Proof.
  induction s as [|c s IH]; [reflexivity|].
  change (has_dot (c :: s)) with (N.eqb dot c || has_dot s).
  intros H. apply orb_false_iff in H as [Hc Hs].
  change (rsplit_dot (c :: s))
    with (match rsplit_dot s with
          | [head; tail] => [c :: head; tail]
          | _ => if (c =? dot)%N then [[]; s] else [c :: s]
          end).
  now rewrite (IH Hs), N.eqb_sym, Hc.
Qed.

Lemma rsplit_dot_last (stem ext : pystr) :
  has_dot ext = false -> rsplit_dot (stem ++ dot :: ext) = [stem; ext].
Proof.
  intros Hext. induction stem as [|c stem IH].
  - change (rsplit_dot ([] ++ dot :: ext))
      with (match rsplit_dot ext with
            | [head; tail] => [dot :: head; tail]
            | _ => if (dot =? dot)%N then [[]; ext] else [dot :: ext]
            end).
    now rewrite (rsplit_dot_no_dot ext Hext), N.eqb_refl.
  - change (rsplit_dot ((c :: stem) ++ dot :: ext))
      with (match rsplit_dot (stem ++ dot :: ext) with
            | [head; tail] => [c :: head; tail]
            | _ => if (c =? dot)%N then [[]; stem ++ dot :: ext]
                   else [c :: stem ++ dot :: ext]
            end).
    now rewrite IH.
Qed.

Lemma has_dot_split (s : pystr) :
  has_dot s = true ->
  exists stem ext, s = stem ++ dot :: ext /\ has_dot ext = false.
Proof.
  induction s as [|c s IH]; [discriminate|].
  change (has_dot (c :: s)) with (N.eqb dot c || has_dot s).
  destruct (has_dot s) eqn:Hs.
  - intros _. destruct (IH eq_refl) as (stem & ext & -> & Hext).
    now exists (c :: stem), ext.
  - rewrite orb_false_r.
    intros Hc. apply N.eqb_eq in Hc as <-. now exists [], s.
Qed.

Lemma has_dot_false (s : pystr) : has_dot s = false <-> dot ∉ s.
Proof.
  unfold has_dot. rewrite <- not_true_iff_false, existsb_exists.
  split.
  - intros H Hin. apply H. exists dot. split; [now apply list_elem_of_In|].
    apply N.eqb_refl.
  - intros H (c & Hin & Hc). apply N.eqb_eq in Hc as <-.
    apply H. now apply list_elem_of_In.
Qed.

(** X21.  A file name is accepted for upload exactly when it has the form
    [stem.ext] where [ext] holds no dot (it is what follows the last dot) and
    its lowercase form is one of png, jpg, jpeg, gif.  In particular a name
    without a dot is refused whatever it is. *)
Theorem allowed_file_spec (lower : pystr -> pystr) (filename : pystr) :
  allowed_file lower filename = true <->
  exists stem ext,
    filename = stem ++ dot :: ext /\ (dot ∉ ext) /\
    lower ext ∈ ALLOWED_EXTENSIONS.
Proof.
  unfold allowed_file. rewrite andb_true_iff, existsb_exists. split.
  - intros [Hdot (e & Hin & He)].
    destruct (has_dot_split filename Hdot) as (stem & ext & -> & Hext).
    exists stem, ext. split; [reflexivity|].
    split; [now apply has_dot_false|].
    rewrite rsplit_dot_last in He by exact Hext. simpl in He.
    apply bool_decide_eq_true in He. rewrite He. now apply list_elem_of_In.
  - intros (stem & ext & -> & Hext & Hin). apply has_dot_false in Hext.
    split.
    + rewrite has_dot_app.
      change (has_dot (dot :: ext)) with (N.eqb dot dot || has_dot ext).
      rewrite N.eqb_refl. apply orb_true_r.
    + exists (lower ext). split; [now apply list_elem_of_In|].
      rewrite rsplit_dot_last by exact Hext. simpl.
      now apply bool_decide_eq_true.
Qed.

(** * The dashboard listing *)

Lemma sort_students_perm lower sort reverse (l : list student_obj) :
  sort_students lower sort reverse l ≡ₚ l.
Proof. destruct sort; simpl; try apply merge_sort_perm. reflexivity. Qed.

Lemma Z_ltb_asym (a b : Z) : (a <? b) = true -> (b <? a) = false.
Proof. lia. Qed.

Lemma sort_students_in_order lower sort reverse (l : list student_obj) :
  Sorted (listing_in_order lower sort reverse)
         (sort_students lower sort reverse l).
Proof.
  destruct sort; simpl;
    try (apply merge_sort_in_order; first [apply str_ltb_asym|apply Z_ltb_asym]).
  induction l; constructor; [assumption|]. destruct l; now constructor.
Qed.

Lemma filter_filter_andb {A} (f g : A -> bool) (l : list A) :
  List.filter g (List.filter f l) = List.filter (fun x => f x && g x) l.
Proof.
  induction l as [|a l IH]; [reflexivity|]. simpl.
  destruct (f a); simpl; [|exact IH]. destruct (g a); now rewrite IH.
Qed.

Lemma filter_true {A} (l : list A) : List.filter (fun _ => true) l = l.
Proof. induction l as [|a l IH]; [reflexivity|]. simpl. now rewrite IH. Qed.

Lemma filters_pass (strip : pystr -> pystr) (program_arg status_arg : pystr)
    (l : list student_obj) :
  status_filter (selected strip status_arg)
    (program_filter strip (selected strip program_arg) l)
  = List.filter (passes_filters strip program_arg status_arg) l.
Proof.
  unfold passes_filters, selected.
  assert (program_filter strip
            match strip program_arg with [] => None | n :: l0 => Some (n :: l0)
            end l
          = List.filter
              (fun s : student_obj =>
                 match strip program_arg with
                 | [] => true
                 | n :: l0 =>
                     pystr_eqb (strip (program_or_empty s.2)) (n :: l0)
                 end) l) as ->.
  { destruct (strip program_arg); simpl; [now rewrite filter_true|reflexivity]. }
  destruct (strip status_arg) as [|c cs] eqn:Hs; simpl.
  - rewrite <- (filter_true (List.filter _ l)) at 1.
    now rewrite filter_filter_andb.
  - destruct (pystr_eqb (c :: cs) (py "Completed"));
      [now rewrite filter_filter_andb|].
    destruct (pystr_eqb (c :: cs) (py "In progress"));
      [now rewrite filter_filter_andb|].
    rewrite <- (filter_true (List.filter _ l)) at 1.
    now rewrite filter_filter_andb.
Qed.

(** X22.  Whatever the query-string arguments, the dashboard shows exactly
    the students that pass the program filter and the status filter, each as
    often as the store returned it, and shows them in the order of the sort
    key: no student is followed by one that sorts strictly before it
    (after it, for descending order). *)
Theorem dashboard_listing_filtered_and_sorted (lower strip : pystr -> pystr)
    (program_arg status_arg : pystr) (sort : sort_by) (reverse : bool)
    (students_all : list student_obj) :
  admin_dashboard_students lower strip program_arg status_arg sort reverse
                           students_all
  ≡ₚ List.filter (passes_filters strip program_arg status_arg) students_all /\
  Sorted (listing_in_order lower sort reverse)
         (admin_dashboard_students lower strip program_arg status_arg sort
                                   reverse students_all).
Proof.
  unfold admin_dashboard_students. split.
  - rewrite sort_students_perm. now rewrite filters_pass.
  - apply sort_students_in_order.
Qed.

Lemma filter_partition {A} (f : A -> bool) (l : list A) :
  List.filter f l ++ List.filter (fun x => negb (f x)) l ≡ₚ l.
Proof.
  induction l as [|a l IH]; [reflexivity|]. simpl. destruct (f a); simpl.
  - now rewrite IH.
  - rewrite <- Permutation_middle. now rewrite IH.
Qed.

(** X23.  The two status filters split the dashboard: for the same program
    filter and sort arguments, the students listed under "Completed"
    together with those listed under "In progress" are the students listed
    without a status filter, and no student is under both: the first
    listing holds only students who reached a non-zero hour target, the second
    only students who did not. *)
Theorem dashboard_status_filters_partition (lower strip : pystr -> pystr)
    (program_arg completed in_progress none : pystr) (sort : sort_by)
    (reverse : bool) (students_all : list student_obj) :
  strip completed = py "Completed" ->
  strip in_progress = py "In progress" ->
  strip none = [] ->
  let listing status_arg :=
    admin_dashboard_students lower strip program_arg status_arg sort reverse
                             students_all in
  listing completed ++ listing in_progress ≡ₚ listing none /\
  Forall (fun s => hours_reached s.2 = true) (listing completed) /\
  Forall (fun s => hours_reached s.2 = false) (listing in_progress).
Proof.
  intros Hc Hi Hn listing. unfold listing, admin_dashboard_students.
  rewrite !sort_students_perm. unfold selected. rewrite Hc, Hi, Hn.
  set (l := program_filter strip _ students_all). simpl.
  split; [apply filter_partition|]. split.
  - apply Forall_forall. intros s Hs. apply list_elem_of_In, filter_In in Hs.
    tauto.
  - apply Forall_forall. intros s Hs. apply list_elem_of_In, filter_In in Hs.
    now apply negb_true_iff.
Qed.

Lemma dashboard_status_filters_partition_witness :
  ascii_strip (py " Completed") = py "Completed" /\
  ascii_strip (py "In progress ") = py "In progress" /\
  ascii_strip (py "  ") = [] /\
  admin_dashboard_students ascii_lower ascii_strip (py "BSIT")
    (py " Completed") by_name false roster
  = [(2, mkStudent (py "Ann") (Some (py "BSIT")) 10 10 None)] /\
  admin_dashboard_students ascii_lower ascii_strip (py "BSIT")
    (py "In progress ") by_name false roster
  = [(1, mkStudent (py "Cy") (Some (py "BSIT")) 20 5 None)] /\
  [(2, mkStudent (py "Ann") (Some (py "BSIT")) 10 10 None)]
  ++ [(1, mkStudent (py "Cy") (Some (py "BSIT")) 20 5 None)]
  ≡ₚ admin_dashboard_students ascii_lower ascii_strip (py "BSIT")
       (py "  ") by_name false roster.
Proof.
  split; [reflexivity|]. split; [reflexivity|]. split; [reflexivity|].
  split; [reflexivity|]. split; [reflexivity|].
  exact (proj1 (dashboard_status_filters_partition ascii_lower ascii_strip
                  (py "BSIT") (py " Completed") (py "In progress ") (py "  ")
                  by_name false roster eq_refl eq_refl eq_refl)).
Defined.
